(** * Analytical core of the FAST conflict-forecast report generators

    Shallow embedding of the classification, percentile, rank, cohort,
    adjacency and trend code of the report generators.  Python floats are
    modelled as rationals [Q] (the decimal thresholds of the source are
    taken as the exact decimals they denote); pandas/NumPy results that may
    be NaN are modelled by the [pyfloat] type below. *)

From Stdlib Require Import ZArith QArith Qabs Qround Lqa Lia List String Bool Permutation Sorted Ascii.
Import ListNotations.
Open Scope string_scope.
Open Scope Q_scope.

(** ** Numeric helpers *)

(** Strict comparison of Python floats, [a < b]. *)
Definition Qltb (a b : Q) : bool := negb (Qle_bool b a).

(** Python float equality [a == b]. *)
Definition Qeqb (a b : Q) : bool := Qeq_bool a b.

(** A Python/NumPy float: a finite value or NaN. *)
Inductive pyfloat : Type :=
| Fin (q : Q)
| NaN.

(** Arithmetic on [pyfloat] as IEEE does it for NaN. *)
Definition pf_mul (a : pyfloat) (k : Q) : pyfloat :=
  match a with Fin q => Fin (q * k) | NaN => NaN end.

(** ** CategoryClassifier *)

(** [utils.categorize_prob_single]. *)
Definition categorize_prob_single (p : Q) : string :=
  if Qle_bool p (1#100) then "Near-certain no conflict"
  else if Qltb p (1#2) then "Improbable conflict"
  else if Qltb p (99#100) then "Probable conflict"
  else "Near-certain conflict".

(** [DataProvider.categorize_probability] (pdf_generator_03/data_provider.py). *)
Definition categorize_probability (prob : Q) : string :=
  if Qle_bool prob (1#100) then "Near-certain no conflict"
  else if Qle_bool prob (50#100) then "Improbable conflict"
  else if Qle_bool prob (99#100) then "Probable conflict"
  else "Near-certain conflict".

(** [DataProvider.categorize_intensity]. *)
Definition categorize_intensity (predicted : Q) : string :=
  if Qeqb predicted 0 then "0"
  else if Qle_bool predicted 10 then "1-10"
  else if Qle_bool predicted 100 then "11-100"
  else if Qle_bool predicted 1000 then "101-1,000"
  else if Qle_bool predicted 10000 then "1,001-10,000"
  else "10,001+".

(** [utils.pie_counts_for_month] bins a probability with
    [pd.cut(p, bins=PIE_BINS, labels=PIE_LABELS, right=True,
    include_lowest=True)], [PIE_BINS = [-inf, 0.01, 0.5, 0.99, inf]]:
    the intervals are closed on the right. *)
Definition pie_bin (p : Q) : string :=
  if Qle_bool p (1#100) then "Near-certain no conflict"
  else if Qle_bool p (1#2) then "Improbable conflict"
  else if Qle_bool p (99#100) then "Probable conflict"
  else "Near-certain conflict".

(** Band membership as the data model declares it (spec, section 3):
    [NearCertainNoConflict (p <= 0.01)], [ImprobableConflict
    (0.01 < p <= 0.50)], [ProbableConflict (0.50 < p <= 0.99)],
    [NearCertainConflict (p > 0.99)]. *)
Definition spec_in_band (label : string) (p : Q) : bool :=
  if String.eqb label "Near-certain no conflict" then Qle_bool p (1#100)
  else if String.eqb label "Improbable conflict" then
    Qltb (1#100) p && Qle_bool p (50#100)
  else if String.eqb label "Probable conflict" then
    Qltb (50#100) p && Qle_bool p (99#100)
  else if String.eqb label "Near-certain conflict" then Qltb (99#100) p
  else false.

(** The four risk labels. *)
Definition risk_labels : list string :=
  ["Near-certain no conflict"; "Improbable conflict";
   "Probable conflict"; "Near-certain conflict"].

(** ** PercentileCalculator *)

(** Sum of a Python sequence of floats. *)
Definition Qsum (xs : list Q) : Q := fold_right Qplus 0 xs.

(** A length as a float. *)
Definition Qlen {A : Type} (xs : list A) : Q := inject_Z (Z.of_nat (List.length xs)).

(** [pd.Series.mean] of a boolean series: [True] counts as 1, and the mean
    of an empty series is NaN. *)
Definition series_mean_bool (bs : list bool) : pyfloat :=
  match bs with
  | [] => NaN
  | _ => Fin (Qsum (map (fun b : bool => if b then 1 else 0) bs) / Qlen bs)
  end.

(** [(month_data['outcome_p'] <= probability).mean() * 100]
    (abtest_ptb/data_extractor.py, lines 35-36; line 86 does the same for
    covariates). *)
Definition percentile_le (value : Q) (population : list Q) : pyfloat :=
  pf_mul (series_mean_bool (map (fun x => Qle_bool x value) population)) 100.

(** Number of members satisfying a test. *)
Definition count_by (f : Q -> bool) (xs : list Q) : nat :=
  List.length (filter f xs).

(** [scipy.stats.percentileofscore(a, score)] with its default
    [kind='rank'] (CovariateDistributionModule._get_percentile):
    [left = count(a < score)], [right = count(a <= score)],
    [plus1 = left < right], result [(left + right + plus1) * (50.0 / n)].
    The empty population is not modelled ([None]): its result depends on
    the SciPy version. *)
Definition percentileofscore_rank (a : list Q) (score : Q) : option Q :=
  match a with
  | [] => None
  | _ =>
    let left := count_by (fun x => Qltb x score) a in
    let right := count_by (fun x => Qle_bool x score) a in
    let plus1 := if Nat.ltb left right then 1%nat else 0%nat in
    Some (inject_Z (Z.of_nat (left + right + plus1)) * (50 / Qlen a))
  end.

(** ** RankEngine *)

(** Result dictionary of [_get_country_rank]. *)
Record rank_info := mk_rank { rank : Z; total : Z; higher : Z; lower : Z }.

Definition unranked : rank_info := mk_rank 0 0 0 0.

(** Insert [x] into a list sorted by descending key, after every element
    whose key is not smaller: the step of Python's stable
    [list.sort(key=lambda x: x[1], reverse=True)] (with [reverse=True]
    equal keys keep their original order). *)
Fixpoint insert_desc (x : Z * Q) (l : list (Z * Q)) : list (Z * Q) :=
  match l with
  | [] => [x]
  | y :: t => if Qltb (snd y) (snd x) then x :: y :: t else y :: insert_desc x t
  end.

Definition sort_desc (l : list (Z * Q)) : list (Z * Q) :=
  fold_left (fun acc x => insert_desc x acc) l [].

(** [next((i + 1 for i, (gid, _) in enumerate(grids) if gid == g), 0)],
    positions counted from [i]. *)
Fixpoint find_rank (g : Z) (grids : list (Z * Q)) (i : Z) : Z :=
  match grids with
  | [] => 0
  | (gid, _) :: t => if Z.eqb gid g then i else find_rank g t (i + 1)
  end.

(** Lines 228-235 of [GridBLUFDataExtractor._get_country_rank]: sort the
    partition and rank the focal grid in it. *)
Definition rank_within (grids : list (Z * Q)) (priogrid_gid : Z) : rank_info :=
  let sorted := sort_desc grids in
  let r := find_rank priogrid_gid sorted 1 in
  let t := Z.of_nat (List.length sorted) in
  mk_rank r t (r - 1) (t - r).

(** A row of the grid forecast table. *)
Record frow := mk_frow { f_gid : Z; f_month_id : Z; f_outcome_n : Q }.

(** Python truthiness of an optional country name. *)
Definition name_truthy (n : option string) : bool :=
  match n with None => false | Some s => negb (String.eqb s "") end.

Definition opt_string_eqb (a b : option string) : bool :=
  match a, b with
  | Some x, Some y => String.eqb x y
  | None, None => true
  | _, _ => false
  end.

(** [GridBLUFDataExtractor._get_country_rank]; [get_country_name] is the
    data provider's lookup of a grid's country. *)
Definition get_country_rank (get_country_name : Z -> option string)
    (forecast_data : list frow) (priogrid_gid target_month_id : Z)
    (country_name : option string) : rank_info :=
  if negb (name_truthy country_name) then unranked else
  let focal_data := filter (fun r => Z.eqb (f_gid r) priogrid_gid
                                     && Z.eqb (f_month_id r) target_month_id)
                           forecast_data in
  match focal_data with
  | [] => unranked
  | _ =>
    let country_forecast := filter (fun r => Z.eqb (f_month_id r) target_month_id)
                                   forecast_data in
    let country_grids :=
      map (fun r => (f_gid r, f_outcome_n r))
          (filter (fun r => opt_string_eqb (get_country_name (f_gid r)) country_name)
                  country_forecast) in
    match country_grids with
    | [] => unranked
    | _ => rank_within country_grids priogrid_gid
    end
  end.

(** ** CohortMatcher *)

(** A row of the monthly country forecast table. *)
Record crow := mk_crow { isoab : string; outcome_p : Q; predicted : Q }.

(** [DataProvider.get_cohort_countries] on the month's rows. *)
Definition get_cohort_countries (month_data : list crow)
    (risk_category intensity_category : string) : list string :=
  match month_data with
  | [] => []
  | _ =>
    map isoab
      (filter (fun r => String.eqb (categorize_probability (outcome_p r)) risk_category
                        && String.eqb (categorize_intensity (predicted r)) intensity_category)
              month_data)
  end.

(** [remaining['isoab'].isin(example_cohorts)]. *)
Definition isin (s : string) (xs : list string) : bool :=
  existsb (String.eqb s) xs.

(** Lines 22-58 of [DataExtractor.extract_template_data]: the cohort list
    and its [similarity_label].  [sort_values] stands for pandas'
    [sort_values('distance')], whose default quicksort is not stable, so
    the order it gives to equal distances is left open: it receives the
    distance key and the rows.  [None] is the [ValueError] raised when
    the country has no row in the month. *)
Definition extract_cohort (sort_values : (crow -> Q) -> list crow -> list crow)
    (month_data : list crow) (country_code : string)
    : option (list string * string) :=
  match filter (fun r => String.eqb (isoab r) country_code) month_data with
  | [] => None
  | target_row :: _ =>
    let probability := outcome_p target_row in
    let predicted_fatalities := predicted target_row in
    let risk_category := categorize_probability probability in
    let intensity_category := categorize_intensity predicted_fatalities in
    let cohort_countries :=
      get_cohort_countries month_data risk_category intensity_category in
    let example_cohorts :=
      firstn 3 (filter (fun c => negb (String.eqb c country_code)) cohort_countries) in
    if Nat.ltb (List.length example_cohorts) 3 then
      let similarity_label :=
        match example_cohorts with
        | [] => "generally similar"
        | _ => "most similar"
        end in
      let all_countries :=
        filter (fun r => negb (String.eqb (isoab r) country_code)) month_data in
      let sorted := sort_values (fun r => Qabs (predicted r - predicted_fatalities))
                                all_countries in
      let remaining := filter (fun r => negb (isin (isoab r) example_cohorts)) sorted in
      let needed := (3 - List.length example_cohorts)%nat in
      let fallback_countries := firstn needed (map isoab remaining) in
      Some ((example_cohorts ++ fallback_countries)%list, similarity_label)
    else Some (example_cohorts, "most similar")
  end.

(** Lines 22-36 of [DataExtractor.extract_template_data]: the guard on
    the country's row and the two percentiles, of the probability and of
    the predicted count, over the month's rows.  [None] is the
    [ValueError] raised at line 26. *)
Definition template_percentiles (month_data : list crow) (country_code : string)
    : option (pyfloat * pyfloat) :=
  match filter (fun r => String.eqb (isoab r) country_code) month_data with
  | [] => None
  | target_row :: _ =>
    let probability := outcome_p target_row in
    let predicted_fatalities := predicted target_row in
    Some (percentile_le probability (map outcome_p month_data),
          percentile_le predicted_fatalities (map predicted month_data))
  end.

(** The natural cohort of a country: the members of its category pair,
    itself excluded. *)
Definition natural_cohort (month_data : list crow) (country_code : string)
    (target_row : crow) : list string :=
  filter (fun c => negb (String.eqb c country_code))
    (get_cohort_countries month_data (categorize_probability (outcome_p target_row))
       (categorize_intensity (predicted target_row))).

(** A stable insertion sort by ascending key: one ordering pandas may
    produce (it does whenever the keys are pairwise distinct). *)
Fixpoint insert_asc {A : Type} (key : A -> Q) (x : A) (l : list A) : list A :=
  match l with
  | [] => [x]
  | y :: t => if Qltb (key x) (key y) then x :: y :: t else y :: insert_asc key x t
  end.

Definition stable_sort_by {A : Type} (key : A -> Q) (l : list A) : list A :=
  fold_left (fun acc x => insert_asc key x acc) l [].

(** ** SpatialAdjacencyResolver *)

(** A cell of the grid [gdf] loaded from the shapefile: its [gid], its
    [xcoord]/[ycoord] columns and its geometry. *)
Record gcell (G : Type) := mk_gcell
  { gid : Z; xcoord : Q; ycoord : Q; geometry : G }.
Arguments mk_gcell {G}.
Arguments gid {G}.
Arguments xcoord {G}.
Arguments ycoord {G}.
Arguments geometry {G}.

(** A cell entry of [grid_data] in [generate_content]. *)
Record cell_info := mk_cell
  { c_gid : Z; c_value : option Q; c_country : option string }.

(** Python dict assignment [d[k] = v] on an insertion-ordered dict: an
    existing key keeps its place and gets the new value, a new key is
    appended. *)
Fixpoint dict_set {V : Type} (k : string) (v : V) (d : list (string * V))
    : list (string * V) :=
  match d with
  | [] => [(k, v)]
  | (k', v') :: t => if String.eqb k k' then (k, v) :: t else (k', v') :: dict_set k v t
  end.

Fixpoint dict_get {V : Type} (k : string) (d : list (string * V)) : option V :=
  match d with
  | [] => None
  | (k', v') :: t => if String.eqb k k' then Some v' else dict_get k t
  end.

(** [GridSpatialModule._get_forecast_value]. *)
Definition get_forecast_value (forecast_data : list frow) (priogrid_gid month_id : Z)
    : option Q :=
  match filter (fun r => Z.eqb (f_gid r) priogrid_gid && Z.eqb (f_month_id r) month_id)
               forecast_data with
  | [] => None
  | r :: _ => Some (f_outcome_n r)
  end.

(** Outcome of [generate_content]: [None] returned, an exception raised,
    or a figure rendered from the final [grid_data] dict. *)
Inductive render_result :=
| NoImage
| Raised
| Rendered (grid_data : list (string * cell_info)).

Section Spatial.

(** The geometry type and the geometry library's [touches] predicate,
    injected. *)
Variable G : Type.
Variable touches : G -> G -> bool.

(** [self.gdf[self.gdf['gid'] == g]] and its first row ([iloc[0]]). *)
Definition find_cell (gdf : list (gcell G)) (g : Z) : option (gcell G) :=
  find (fun r => Z.eqb (gid r) g) gdf.

(** [GridSpatialModule._get_neighbors]. *)
Definition get_neighbors (gdf : list (gcell G)) (priogrid_gid : Z) : list Z :=
  match find_cell gdf priogrid_gid with
  | None => []
  | Some focal_row =>
    map gid (filter (fun r => touches (geometry r) (geometry focal_row)) gdf)
  end.

(** [GridSpatialModule._get_geographic_position]; [None] is the
    [IndexError] of [iloc[0]] on a missing gid. *)
Definition get_geographic_position (gdf : list (gcell G)) (focal_gid neighbor_gid : Z)
    : option string :=
  match find_cell gdf focal_gid, find_cell gdf neighbor_gid with
  | Some focal_row, Some neighbor_row =>
    let ns := if Qltb (ycoord focal_row) (ycoord neighbor_row) then "N"
              else if Qltb (ycoord neighbor_row) (ycoord focal_row) then "S"
              else "" in
    let ew := if Qltb (xcoord focal_row) (xcoord neighbor_row) then "E"
              else if Qltb (xcoord neighbor_row) (xcoord focal_row) then "W"
              else "" in
    Some (ns ++ ew)
  | _, _ => None
  end.

(** The loop of lines 111-120 filling [grid_data]. *)
Fixpoint fill_grid_data (get_country_name : Z -> option string)
    (baseline_forecast : list frow) (gdf : list (gcell G))
    (priogrid_gid target_month_id : Z) (neighbor_gids : list Z)
    (grid_data : list (string * cell_info)) : option (list (string * cell_info)) :=
  match neighbor_gids with
  | [] => Some grid_data
  | neighbor_gid :: rest =>
    match get_geographic_position gdf priogrid_gid neighbor_gid with
    | None => None
    | Some position =>
      let neighbor_value := get_forecast_value baseline_forecast neighbor_gid target_month_id in
      let neighbor_country := get_country_name neighbor_gid in
      fill_grid_data get_country_name baseline_forecast gdf priogrid_gid target_month_id rest
        (dict_set position (mk_cell neighbor_gid neighbor_value neighbor_country) grid_data)
    end
  end.

(** [GridSpatialModule.generate_content] up to the figure: the figure is
    drawn from [grid_data], which is what the result records. *)
Definition generate_content (get_country_name : Z -> option string)
    (baseline_forecast : list frow) (gdf : list (gcell G))
    (priogrid_gid target_month_id : Z) : render_result :=
  let neighbor_gids := get_neighbors gdf priogrid_gid in
  if negb (Nat.eqb (List.length neighbor_gids) 8) then NoImage else
  let focal_country := get_country_name priogrid_gid in
  let focal_value := get_forecast_value baseline_forecast priogrid_gid target_month_id in
  let grid_data := [("CENTER", mk_cell priogrid_gid focal_value focal_country)] in
  match fill_grid_data get_country_name baseline_forecast gdf priogrid_gid target_month_id
          neighbor_gids grid_data with
  | None => Raised
  | Some gd => Rendered gd
  end.

(** The cell that [grid_data] keeps under label [L] when a dict
    assignment overwrites: the last neighbor, in [neighbor_gids] order,
    whose position is [L]. *)
Fixpoint last_at (get_country_name : Z -> option string)
    (baseline_forecast : list frow) (gdf : list (gcell G))
    (priogrid_gid target_month_id : Z) (L : string) (neighbor_gids : list Z)
    : option cell_info :=
  match neighbor_gids with
  | [] => None
  | n :: rest =>
    match last_at get_country_name baseline_forecast gdf priogrid_gid target_month_id L rest with
    | Some c => Some c
    | None =>
      if opt_string_eqb (get_geographic_position gdf priogrid_gid n) (Some L)
      then Some (mk_cell n (get_forecast_value baseline_forecast n target_month_id)
                         (get_country_name n))
      else None
    end
  end.

End Spatial.

(** Axis-aligned rectangles [[x0,x1] x [y0,y1]] with positive area: the
    shape of a PRIO-GRID cell. *)
Record rect := mk_rect { rx0 : Q; rx1 : Q; ry0 : Q; ry1 : Q }.

(** Shapely's [touches] on such rectangles: the closed rectangles meet and
    their interiors do not. *)
Definition rect_touches (a b : rect) : bool :=
  (Qle_bool (rx0 a) (rx1 b) && Qle_bool (rx0 b) (rx1 a)
   && Qle_bool (ry0 a) (ry1 b) && Qle_bool (ry0 b) (ry1 a))
  && negb (Qltb (rx0 a) (rx1 b) && Qltb (rx0 b) (rx1 a)
           && Qltb (ry0 a) (ry1 b) && Qltb (ry0 b) (ry1 a)).

(** A grid cell whose coordinate columns hold its centroid. *)
Definition rect_cell (g : Z) (x0 x1 y0 y1 : Q) : gcell rect :=
  mk_gcell g ((x0 + x1) / 2) ((y0 + y1) / 2) (mk_rect x0 x1 y0 y1).

(** ** TrendEstimator *)

(** [np.polyfit(range(n), ys, 1)[0]]: the least-squares slope of [ys]
    against the indices [0 .. n-1]. *)
Definition polyfit_slope (ys : list Q) : Q :=
  let n := Qlen ys in
  let xs := map (fun i => inject_Z (Z.of_nat i)) (seq 0 (List.length ys)) in
  let sx := Qsum xs in
  let sy := Qsum ys in
  let sxy := Qsum (map (fun p => fst p * snd p) (combine xs ys)) in
  let sxx := Qsum (map (fun x => x * x) xs) in
  (n * sxy - sx * sy) / (n * sxx - sx * sx).

(** The three texts of [DataExtractor._get_trend_description]:
    ["increasing (slope: +s fatalities/month)"],
    ["decreasing (slope: s fatalities/month)"] and ["relatively stable"]. *)
Inductive trend_text :=
| Increasing (slope : Q)
| Decreasing (slope : Q)
| RelativelyStable.

(** [DataExtractor._get_trend_description]. *)
Definition get_trend_description (trend_slope : Q) : trend_text :=
  if Qltb 5 (Qabs trend_slope) then
    if Qltb 0 trend_slope then Increasing trend_slope else Decreasing trend_slope
  else RelativelyStable.

(** The trend part of [DataExtractor.extract_template_data] (lines 64-69
    and 92): [historical_avg], [trend_slope] and [trend_desc] from the
    historical points. *)
Definition ptb_trend (historical_points : list Q) : Q * Q * trend_text :=
  let historical_avg :=
    match historical_points with
    | [] => 0
    | _ => Qsum historical_points / Qlen historical_points
    end in
  let trend_slope :=
    if Nat.leb 3 (List.length historical_points) then polyfit_slope historical_points
    else 0 in
  (historical_avg, trend_slope, get_trend_description trend_slope).

(** [values[-12:]]. *)
Definition last_n {A : Type} (n : nat) (l : list A) : list A :=
  skipn (List.length l - n) l.

(** [GridBLUFDataExtractor._get_historical_context] from line 120 on:
    [values] is the grid's [ged_sb] column sorted by [month_id]; the grid
    having no rows is the empty list. *)
Definition historical_context (values : list Q) : Q * string :=
  match values with
  | [] => (0, "no historical data")
  | _ =>
    let avg := Qsum values / Qlen values in
    if Nat.ltb (List.length values) 6 then (avg, "limited data") else
    let recent_values := last_n 12 values in
    let recent_avg := Qsum recent_values / Qlen recent_values in
    let trend :=
      if Nat.leb 12 (List.length values) then
        let trend_slope := polyfit_slope recent_values in
        if Qltb (Qabs trend_slope) 1 then "stable"
        else if Qltb 0 trend_slope then "increasing"
        else "decreasing"
      else "stable" in
    let level :=
      if Qltb 100 recent_avg then "high"
      else if Qltb 10 recent_avg then "moderate"
      else if Qltb 0 recent_avg then "low"
      else "minimal" in
    (avg, level ++ " and " ++ trend)
  end.

(** ** Further classifiers and comparisons *)

(** Position of a label in a label list (its length when absent). *)
Fixpoint index_of (l : list string) (s : string) : nat :=
  match l with
  | [] => 0
  | x :: t => if String.eqb x s then 0 else S (index_of t s)
  end.

(** The labels of [DataProvider.categorize_intensity], in order. *)
Definition intensity_labels : list string :=
  ["0"; "1-10"; "11-100"; "101-1,000"; "1,001-10,000"; "10,001+"].

(** [GridBLUFDataExtractor._categorize_risk]. *)
Definition categorize_risk (probability : Q) : string :=
  if Qle_bool (95#100) probability then "Near-certain conflict"
  else if Qle_bool (75#100) probability then "Highly probable conflict"
  else if Qle_bool (50#100) probability then "Probable conflict"
  else if Qle_bool (25#100) probability then "Possible conflict"
  else if Qle_bool (5#100) probability then "Unlikely conflict"
  else "Near-certain no conflict".

(** The labels of [_categorize_risk], from the least to the most likely. *)
Definition grid_risk_labels : list string :=
  ["Near-certain no conflict"; "Unlikely conflict"; "Possible conflict";
   "Probable conflict"; "Highly probable conflict"; "Near-certain conflict"].

(** A bin edge of [config.py]: a float or [float("inf")]. *)
Inductive edge := Edge (q : Q) | Inf.

Definition edge_lt (e : edge) (p : Q) : bool :=
  match e with Edge q => Qltb q p | Inf => false end.
Definition le_edge (p : Q) (e : edge) : bool :=
  match e with Edge q => Qle_bool p q | Inf => true end.
Definition edge_eq (p : Q) (e : edge) : bool :=
  match e with Edge q => Qeq_bool p q | Inf => false end.

(** [config.BAND_BINS] and [config.BAND_LABELS]. *)
Definition BAND_BINS : list edge :=
  [Edge (-1#10); Edge 0; Edge 10; Edge 100; Edge 1000; Edge 10000; Inf].
Definition BAND_LABELS : list string :=
  ["0"; "1–10"; "11–100"; "101–1,000"; "1,001–10,000"; "10,001+"].

(** The loop of [utils.categorize_band_single]: the first [i] with
    [edges[i] < pred <= edges[i+1] or (i == 0 and pred == edges[0])]. *)
Fixpoint band_search (pred : Q) (first : bool) (edges : list edge) (labs : list string)
    : option string :=
  match edges, labs with
  | lo :: ((hi :: _) as rest), lab :: labs' =>
    if (edge_lt lo pred && le_edge pred hi) || (first && edge_eq pred lo) then Some lab
    else band_search pred false rest labs'
  | _, _ => None
  end.

(** [utils.categorize_band_single]: [labs[-1]] when the loop finds no
    band. *)
Definition categorize_band_single (pred : Q) : string :=
  match band_search pred true BAND_BINS BAND_LABELS with
  | Some l => l
  | None => last BAND_LABELS ""
  end.

(** [pd.cut(x, bins=BAND_BINS, labels=BAND_LABELS, include_lowest=True)]
    on one value: intervals closed on the right, the first one closed on
    the left too; [None] (NaN) outside [[-0.1, inf)]. *)
Definition waffle_bin (p : Q) : option string :=
  if Qltb p (-1#10) then None
  else if Qle_bool p 0 then Some "0"
  else if Qle_bool p 10 then Some "1–10"
  else if Qle_bool p 100 then Some "11–100"
  else if Qle_bool p 1000 then Some "101–1,000"
  else if Qle_bool p 10000 then Some "1,001–10,000"
  else Some "10,001+".

(** [config.PIE_LABELS]. *)
Definition PIE_LABELS : list string := risk_labels.

(** A row of the dashboard table used by [utils.py]: its month index
    ([outcome_n]), probability and predicted count, possibly missing. *)
Record urow := mk_urow
  { u_outcome_n : Z; u_outcome_p : option Q; u_predicted : option Q }.

(** [fillna(0.0)]. *)
Definition fillna0 (x : option Q) : Q := match x with Some q => q | None => 0 end.

(** Count the rows of [dfm] whose bin is [lab]: [value_counts()] followed
    by [reindex(labels, fill_value=0)]. *)
Definition counts_by {A : Type} (bin : A -> option string) (labels : list string)
    (dfm : list A) : list (string * nat) :=
  map (fun lab => (lab, List.length (filter (fun r => opt_string_eqb (bin r) (Some lab)) dfm)))
      labels.

(** [utils.pie_counts_for_month]. *)
Definition pie_counts_for_month (df : list urow) (month_idx : Z) : list (string * nat) :=
  let dfm := filter (fun r => Z.eqb (u_outcome_n r) month_idx) df in
  match dfm with
  | [] => map (fun l => (l, 0%nat)) PIE_LABELS
  | _ => counts_by (fun r => Some (pie_bin (fillna0 (u_outcome_p r)))) PIE_LABELS dfm
  end.

(** [utils.waffle_counts_for_month]. *)
Definition waffle_counts_for_month (df : list urow) (month_idx : Z) : list (string * nat) :=
  let dfm := filter (fun r => Z.eqb (u_outcome_n r) month_idx) df in
  match dfm with
  | [] => map (fun l => (l, 0%nat)) BAND_LABELS
  | _ => counts_by (fun r => waffle_bin (fillna0 (u_predicted r))) BAND_LABELS dfm
  end.

(** [DataExtractor._get_forecast_comparison]. *)
Definition get_forecast_comparison (predicted historical_avg : Q) : string :=
  if Qeqb historical_avg 0 then "higher than" else
  let ratio := predicted / historical_avg in
  if Qltb (11#10) ratio then "higher than"
  else if Qltb ratio (9#10) then "lower than"
  else "consistent with".

(** [GridBLUFDataExtractor._compare_forecast_to_historical]. *)
Definition compare_forecast_to_historical (forecast historical : Q) : string :=
  if Qeqb historical 0 then
    (if Qltb 0 forecast then "higher than" else "consistent with")
  else
  let ratio := forecast / historical in
  if Qltb (12#10) ratio then "higher than"
  else if Qltb ratio (8#10) then "lower than"
  else "consistent with".

(** ** Historical series of a country *)

(** A row of the country historical table. *)
Record hrow := mk_hrow
  { h_isoab : string; h_Year : Z; h_Month : Z; h_total_fatalities : Q }.

(** [range(a, b)] on integers. *)
Definition zrange (a b : Z) : list Z :=
  map (fun i => a + Z.of_nat i)%Z (seq 0 (Z.to_nat (b - a))).

(** The inner loop of [_get_historical_monthly_data]:
    [for month in range(1, 13): if year == 2025 and month >= 9: break]. *)
Fixpoint month_loop (year : Z) (months : list Z) : list (Z * Z) :=
  match months with
  | [] => []
  | month :: rest =>
    if Z.eqb year 2025 && Z.leb 9 month then []
    else (year, month) :: month_loop year rest
  end.

(** The (year, month) pairs the nested loops visit. *)
Definition history_window : list (Z * Z) :=
  flat_map (fun year => month_loop year (zrange 1 13)) (zrange 2020 2026).

(** [DataExtractor._get_historical_monthly_data]. *)
Definition get_historical_monthly_data (historical_data : list hrow) (country_code : string)
    : list Q :=
  let country_historical := filter (fun r => String.eqb (h_isoab r) country_code)
                                   historical_data in
  match country_historical with
  | [] => []
  | _ =>
    map (fun ym =>
           let year_month_data :=
             filter (fun r => Z.eqb (h_Year r) (fst ym) && Z.eqb (h_Month r) (snd ym))
                    country_historical in
           match year_month_data with
           | [] => 0
           | _ => Qsum (map h_total_fatalities year_month_data)
           end)
        history_window
  end.

(** ** Neighborhood of a grid cell *)




(** [sum] of a list of counts. *)
Definition nat_sum (l : list nat) : nat := fold_right Nat.add 0%nat l.

(** The order [sort_desc] produces: non-increasing values. *)
Definition desc_key (a b : Z * Q) : Prop := snd b <= snd a.

(** The opposite compass direction of one letter of a position. *)
Definition flip_compass_char (c : Ascii.ascii) : Ascii.ascii :=
  if Ascii.eqb c "N"%char then "S"%char
  else if Ascii.eqb c "S"%char then "N"%char
  else if Ascii.eqb c "E"%char then "W"%char
  else if Ascii.eqb c "W"%char then "E"%char
  else c.

(** The opposite of a position such as ["NE"]. *)
Fixpoint flip_compass (s : string) : string :=
  match s with
  | EmptyString => EmptyString
  | String c t => String (flip_compass_char c) (flip_compass t)
  end.

(** ** Concrete inputs *)

(** The five-grid partition of the spec's example. *)
Definition five_grids : list (Z * Q) :=
  [(1%Z, 100); (2%Z, 80); (3%Z, 50); (4%Z, 20); (5%Z, 0)].

(** The two percentiles differ on a population with ties. *)
Definition tied_population : list Q := [1; 2; 2; 3].

(** A month of three countries: "AAA" and "BBB" share the category pair
    (Improbable conflict, 1-10), "CCC" does not. *)
Definition cohort_md : list crow :=
  [mk_crow "AAA" (1#5) 5; mk_crow "BBB" (1#5) 7; mk_crow "CCC" (9#10) 500].

(** A mesh of rectangles around the focal cell 0 = [[0,2] x [0,2]]:
    cells 1 (N), 2 (NW), 3 (NE corner), 4 and 5 (the east side split in
    two, NE and SE), 6 (SE corner), 7 (S) and 8 (W); no SW cell.  Eight
    cells touch the focal one, and two pairs of them share a label. *)
Definition split_mesh : list (gcell rect) :=
  [rect_cell 0%Z 0 2 0 2; rect_cell 1%Z 0 2 2 3; rect_cell 2%Z (-1) 0 2 3;
   rect_cell 3%Z 2 3 2 3; rect_cell 4%Z 2 3 1 2; rect_cell 5%Z 2 3 0 1;
   rect_cell 6%Z 2 3 (-1) 0; rect_cell 7%Z 0 2 (-1) 0; rect_cell 8%Z (-1) 0 0 2].

(** A regular mesh of unit squares around the focal cell 0 = [[0,1]^2]
    with its SW neighbor missing (a boundary cell with 7 neighbors). *)
Definition boundary_mesh : list (gcell rect) :=
  [rect_cell 0%Z 0 1 0 1; rect_cell 1%Z 0 1 1 2; rect_cell 2%Z (-1) 0 1 2;
   rect_cell 3%Z 1 2 1 2; rect_cell 4%Z 1 2 0 1; rect_cell 5%Z 1 2 (-1) 0;
   rect_cell 6%Z 0 1 (-1) 0; rect_cell 7%Z (-1) 0 0 1].

(** The [grid_data] that [generate_content] draws for [split_mesh]. *)
Definition split_mesh_grid_data : list (string * cell_info) :=
  [("CENTER", mk_cell 0 None (Some "X")); ("N", mk_cell 1 None (Some "X"));
   ("NW", mk_cell 2 None (Some "X")); ("NE", mk_cell 4 None (Some "X"));
   ("SE", mk_cell 6 None (Some "X")); ("S", mk_cell 7 None (Some "X"));
   ("W", mk_cell 8 None (Some "X"))].

(** Every grid belongs to the same country. *)
Definition one_country (_ : Z) : option string := Some "X".

(** The spec's six-point series. *)
Definition six_points : list Q := [0; 0; 0; 12; 24; 36].

(** * Properties *)

(** Close a goal whose boolean comparison hypotheses are contradictory. *)
Ltac qle_contra :=
  exfalso;
  repeat match goal with
  | H : Qle_bool _ _ = true |- _ => apply Qle_bool_iff in H
  | H : Qle_bool _ _ = false |- _ => apply not_true_iff_false in H; rewrite Qle_bool_iff in H
  end; lra.


(** ** CategoryClassifier *)

(** [DataProvider.categorize_probability] puts every [p] in [[0,1]] in the
    band the data model declares for its label, and in no other. *)
Lemma categorize_probability_bands (p : Q) :
  0 <= p -> p <= 1 ->
  forall L, In L risk_labels -> (categorize_probability p = L <-> spec_in_band L p = true).
Proof.
  intros _ _ L HL.
  unfold categorize_probability, spec_in_band, Qltb.
  destruct (Qle_bool p (1#100)) eqn:E1;
  destruct (Qle_bool p (50#100)) eqn:E2;
  destruct (Qle_bool p (99#100)) eqn:E3;
  simpl in HL; destruct HL as [<-|[<-|[<-|[<-|[]]]]]; cbn;
  split; intro H; first [reflexivity | discriminate | exact H | qle_contra].
Qed.

(** [pd.cut] on [PIE_BINS], the binning [utils.py] uses for the pie chart,
    agrees with [DataProvider.categorize_probability] everywhere. *)
Lemma pie_bin_categorize_probability (p : Q) :
  pie_bin p = categorize_probability p.
Proof.
  unfold pie_bin, categorize_probability.
  assert (E : Qle_bool p (1#2) = Qle_bool p (50#100)).
  { destruct (Qle_bool p (1#2)) eqn:A, (Qle_bool p (50#100)) eqn:B;
      first [reflexivity | qle_contra]. }
  rewrite E. reflexivity.
Qed.

(** Claim C1 (code_bug).  [utils.categorize_prob_single] puts [p = 0.5] in
    "Probable conflict" and [p = 0.99] in "Near-certain conflict", while
    [DataProvider.categorize_probability] and the pie binning of the same
    [utils.py] put them in "Improbable conflict" and "Probable conflict",
    as the declared bands do. *)
Theorem C1_categorize_prob_single_boundaries :
  categorize_prob_single (1#2) = "Probable conflict"
  /\ categorize_prob_single (99#100) = "Near-certain conflict"
  /\ categorize_probability (1#2) = "Improbable conflict"
  /\ categorize_probability (99#100) = "Probable conflict"
  /\ pie_bin (1#2) = "Improbable conflict"
  /\ pie_bin (99#100) = "Probable conflict"
  /\ spec_in_band "Improbable conflict" (1#2) = true
  /\ spec_in_band "Probable conflict" (99#100) = true.
Proof. repeat split; reflexivity. Qed.

(** Claim C6, counterexample.  Out-of-range inputs are classified, not
    rejected: [p = 1.5], [p = -0.5] and the intensity [-5] all get a
    label. *)
Lemma C6_out_of_range_classified :
  categorize_probability (3#2) = "Near-certain conflict"
  /\ categorize_prob_single (3#2) = "Near-certain conflict"
  /\ categorize_probability (-1#2) = "Near-certain no conflict"
  /\ categorize_intensity (-5) = "1-10".
Proof. repeat split; reflexivity. Qed.

(** Claim C6 (amended).  The classifiers are total: every [p > 1] is
    "Near-certain conflict", every [p < 0] is "Near-certain no conflict"
    (for both probability classifiers), and every negative intensity is
    "1-10". *)
Theorem C6_classifiers_total (p x : Q) :
  (1 < p -> categorize_probability p = "Near-certain conflict"
            /\ categorize_prob_single p = "Near-certain conflict")
  /\ (p < 0 -> categorize_probability p = "Near-certain no conflict"
               /\ categorize_prob_single p = "Near-certain no conflict")
  /\ (x < 0 -> categorize_intensity x = "1-10").
Proof.
  unfold categorize_probability, categorize_prob_single, categorize_intensity, Qltb, Qeqb.
  split; [|split]; intro H.
  - assert (E1 : Qle_bool p (1#100) = false)
      by (apply not_true_iff_false; rewrite Qle_bool_iff; lra).
    assert (E2 : Qle_bool p (50#100) = false)
      by (apply not_true_iff_false; rewrite Qle_bool_iff; lra).
    assert (E2' : Qle_bool (1#2) p = true) by (rewrite Qle_bool_iff; lra).
    assert (E3 : Qle_bool p (99#100) = false)
      by (apply not_true_iff_false; rewrite Qle_bool_iff; lra).
    assert (E3' : Qle_bool (99#100) p = true) by (rewrite Qle_bool_iff; lra).
    rewrite E1, E2, E2', E3, E3'. split; reflexivity.
  - assert (E1 : Qle_bool p (1#100) = true) by (rewrite Qle_bool_iff; lra).
    rewrite E1. split; reflexivity.
  - assert (E0 : Qeq_bool x 0 = false)
      by (apply not_true_iff_false; rewrite Qeq_bool_iff; lra).
    assert (E1 : Qle_bool x 10 = true) by (rewrite Qle_bool_iff; lra).
    rewrite E0, E1. reflexivity.
Qed.

(** Witness of claim C6 at [p = 1.5] and [x = -5]. *)
Lemma C6_classifiers_total_witness :
  categorize_probability (3#2) = "Near-certain conflict"
  /\ categorize_intensity (-5) = "1-10".
Proof.
  split.
  - apply (proj1 (proj1 (C6_classifiers_total (3#2) (-5)) ltac:(vm_compute; reflexivity))).
  - apply (proj2 (proj2 (C6_classifiers_total (3#2) (-5))) ltac:(vm_compute; reflexivity)).
Defined.

(** ** RankEngine *)

Lemma insert_desc_perm (x : Z * Q) (l : list (Z * Q)) :
  Permutation (insert_desc x l) (x :: l).
Proof.
  induction l as [|y t IH]; simpl; [reflexivity|].
  destruct (Qltb (snd y) (snd x)); [reflexivity|].
  rewrite IH. apply perm_swap.
Qed.

Lemma sort_desc_perm_acc (l acc : list (Z * Q)) :
  Permutation (fold_left (fun acc x => insert_desc x acc) l acc) (l ++ acc).
Proof.
  revert acc; induction l as [|x t IH]; intro acc; simpl; [reflexivity|].
  rewrite IH, insert_desc_perm. symmetry. apply Permutation_middle.
Qed.

Lemma sort_desc_perm (l : list (Z * Q)) : Permutation (sort_desc l) l.
Proof. unfold sort_desc. rewrite sort_desc_perm_acc, app_nil_r. reflexivity. Qed.

Lemma find_rank_bounds (g : Z) (l : list (Z * Q)) (i : Z) :
  In g (map fst l) ->
  (i <= find_rank g l i <= i + Z.of_nat (List.length l) - 1)%Z.
Proof.
  revert i; induction l as [|[g' v] t IH]; intros i Hin; simpl in *; [contradiction|].
  destruct (Z.eqb g' g) eqn:E; [lia|].
  apply Z.eqb_neq in E.
  destruct Hin as [Hg|Hin]; [congruence|].
  specialize (IH (i + 1)%Z Hin). lia.
Qed.

(** Claim C4, counterexample.  In the five-grid partition the top grid
    has [rank = 1], [higher = 0], [total = 5]: [higher + rank = 1], not
    the total. *)
Lemma C4_higher_plus_rank_not_total :
  let r := rank_within five_grids 1 in
  rank r = 1%Z /\ higher r = 0%Z /\ total r = 5%Z /\ (higher r + rank r <> total r)%Z.
Proof. vm_compute. repeat split; discriminate. Qed.

(** Claim C4 (amended).  For a grid found in its partition, [rank] is
    between 1 and [total], [rank + lower = total], [higher = rank - 1]
    and [higher + 1 + lower = total]; the grid with intensity 50 in the
    partition [[100,80,50,20,0]] gets [rank = 3], [higher = 2],
    [lower = 2]. *)
Theorem C4_rank_within_counts (grids : list (Z * Q)) (g : Z) :
  In g (map fst grids) ->
  let r := rank_within grids g in
  (1 <= rank r <= total r /\ rank r + lower r = total r
   /\ higher r = rank r - 1 /\ higher r + 1 + lower r = total r)%Z
  /\ rank_within five_grids 3 = mk_rank 3 5 2 2.
Proof.
  intro Hin. split; [|reflexivity].
  unfold rank_within; cbn [rank total higher lower].
  assert (Hs : In g (map fst (sort_desc grids))).
  { eapply Permutation_in; [|exact Hin].
    apply Permutation_map. symmetry. apply sort_desc_perm. }
  pose proof (find_rank_bounds g (sort_desc grids) 1 Hs). lia.
Qed.

(** Witness of claim C4: the grid of intensity 50 in [five_grids]. *)
Lemma C4_rank_within_counts_witness :
  (rank (rank_within five_grids 3) + lower (rank_within five_grids 3)
   = total (rank_within five_grids 3))%Z.
Proof.
  apply (proj1 (proj2 (proj1 (C4_rank_within_counts five_grids 3 ltac:(simpl; auto))))).
Defined.

(** ** PercentileCalculator *)

Lemma series_mean_bool_nonempty (bs : list bool) :
  bs <> [] ->
  series_mean_bool bs = Fin (Qsum (map (fun b : bool => if b then 1 else 0) bs) / Qlen bs).
Proof. destruct bs; [congruence|reflexivity]. Qed.

Lemma Qsum_indicator (f : Q -> bool) (P : list Q) :
  Qsum (map (fun b : bool => if b then 1 else 0) (map f P))
  == inject_Z (Z.of_nat (count_by f P)).
Proof.
  unfold count_by. induction P as [|x t IH]; simpl; [reflexivity|].
  destruct (f x); cbn [map fold_right Qsum filter List.length]; rewrite IH; [|ring].
  rewrite Nat2Z.inj_succ, <- Z.add_1_l, inject_Z_plus. reflexivity.
Qed.

Lemma Qlen_map {A B : Type} (f : A -> B) (l : list A) : Qlen (map f l) = Qlen l.
Proof. unfold Qlen. rewrite length_map. reflexivity. Qed.

Lemma Qlen_pos {A : Type} (l : list A) : l <> [] -> 0 < Qlen l.
Proof.
  intro H. unfold Qlen. change 0 with (inject_Z 0). rewrite <- Zlt_Qlt.
  destruct l; [congruence|]. simpl. lia.
Qed.

Lemma count_le_member (v : Q) (P : list Q) :
  In v P -> (1 <= count_by (fun x => Qle_bool x v) P)%nat.
Proof.
  intro H. unfold count_by.
  assert (Hf : In v (filter (fun x => Qle_bool x v) P)).
  { apply filter_In. split; [exact H|]. apply Qle_bool_iff, Qle_refl. }
  destruct (filter _ P); [contradiction|]. simpl. lia.
Qed.

Lemma inject_nat_pos (n : nat) : (1 <= n)%nat -> 0 < inject_Z (Z.of_nat n).
Proof. intro H. change 0 with (inject_Z 0). rewrite <- Zlt_Qlt. lia. Qed.

(** Claim C5 (code bug).  The covariate module's [_get_percentile]
    ([scipy.stats.percentileofscore], [kind='rank']) does not compute the
    inclusive percentile [100 * #{x <= v} / |P|]: on [[1,2,2,3]] at [2]
    it gives 62.5, while the inclusive percentile, the one the data
    extractor (lines 35-36 and 86) and the BLUF generator (line 102)
    compute, is 75. *)
Lemma C5_percentiles_differ :
  percentile_le 2 tied_population = Fin (300 # 4)
  /\ percentileofscore_rank tied_population 2 = Some (250 # 4)
  /\ ~ (300 # 4 == 250 # 4).
Proof. split; [reflexivity|]. split; [reflexivity|]. discriminate. Qed.

(** ** CohortMatcher *)

(** Claim C2, counterexample.  "AAA" has one natural-cohort member,
    "BBB"; "CCC" is backfilled, and the result carries the label
    "most similar", the label of an exact match (line 58). *)
Lemma C2_backfill_labelled_most_similar :
  natural_cohort cohort_md "AAA" (mk_crow "AAA" (1#5) 5) = ["BBB"]
  /\ extract_cohort stable_sort_by cohort_md "AAA" = Some (["BBB"; "CCC"], "most similar").
Proof. split; reflexivity. Qed.

(** Claim C2 (amended).  With a natural cohort of at least 3 members the
    result is its first 3 members, labelled "most similar", with no
    backfill.  Otherwise the result starts with the whole natural cohort
    and the label is "generally similar" when that cohort is empty and
    "most similar" when it is not, whether or not backfill members
    follow; the label does not record backfill.  This holds whatever
    order the sort gives to equal distances. *)
Theorem C2_cohort_label (sort_values : (crow -> Q) -> list crow -> list crow)
    (month_data : list crow) (country_code : string) :
  match filter (fun r => String.eqb (isoab r) country_code) month_data with
  | [] => extract_cohort sort_values month_data country_code = None
  | t :: _ =>
    let nat_cohort := natural_cohort month_data country_code t in
    if Nat.leb 3 (List.length nat_cohort) then
      extract_cohort sort_values month_data country_code
      = Some (firstn 3 nat_cohort, "most similar")
    else
      exists fallback,
        extract_cohort sort_values month_data country_code
        = Some ((nat_cohort ++ fallback)%list,
                match nat_cohort with [] => "generally similar" | _ => "most similar" end)
  end.
Proof.
  unfold extract_cohort.
  destruct (filter (fun r => String.eqb (isoab r) country_code) month_data) as [|t rest];
    [reflexivity|].
  cbv zeta. fold (natural_cohort month_data country_code t).
  set (n := natural_cohort month_data country_code t).
  destruct (Nat.leb 3 (List.length n)) eqn:E.
  - apply Nat.leb_le in E.
    rewrite (proj2 (Nat.ltb_ge _ _)); [reflexivity|].
    rewrite length_firstn. lia.
  - apply Nat.leb_gt in E.
    rewrite firstn_all2 by lia.
    rewrite (proj2 (Nat.ltb_lt _ _)) by exact E.
    eexists. reflexivity.
Qed.

(** ** SpatialAdjacencyResolver *)

Lemma dict_get_set {V : Type} (k k' : string) (v : V) (d : list (string * V)) :
  dict_get k (dict_set k' v d) = if String.eqb k k' then Some v else dict_get k d.
Proof.
  induction d as [|[k'' v''] t IH]; simpl.
  - reflexivity.
  - destruct (String.eqb_spec k' k'') as [->|Hne]; simpl.
    + destruct (String.eqb k k''); reflexivity.
    + rewrite IH. destruct (String.eqb_spec k k') as [->|Hk]; [|reflexivity].
      destruct (String.eqb_spec k' k''); [contradiction|reflexivity].
Qed.

Section SpatialProps.

Variable G : Type.
Variable touches : G -> G -> bool.

Lemma find_cell_member (gdf : list (gcell G)) (r : gcell G) :
  In r gdf -> exists r', find_cell G gdf (gid r) = Some r'.
Proof.
  intro Hin. unfold find_cell.
  destruct (find (fun r' => Z.eqb (gid r') (gid r)) gdf) as [r'|] eqn:E; [eauto|].
  pose proof (find_none _ _ E r Hin) as H. simpl in H. rewrite Z.eqb_refl in H. discriminate.
Qed.

Lemma get_neighbors_found (gdf : list (gcell G)) (g n : Z) :
  In n (get_neighbors G touches gdf g) ->
  get_geographic_position G gdf g n <> None.
Proof.
  unfold get_neighbors, get_geographic_position.
  destruct (find_cell G gdf g) as [f|] eqn:Ef; [|contradiction].
  intro Hin. apply in_map_iff in Hin as [r [<- Hr]].
  apply filter_In in Hr as [Hr _].
  destruct (find_cell_member gdf r Hr) as [r' ->]. discriminate.
Qed.

Lemma fill_grid_data_some gcn fc gdf g m (ns : list Z) d :
  (forall n, In n ns -> get_geographic_position G gdf g n <> None) ->
  exists gd, fill_grid_data G gcn fc gdf g m ns d = Some gd.
Proof.
  revert d; induction ns as [|n t IH]; intros d H; simpl; [eauto|].
  destruct (get_geographic_position G gdf g n) as [pos|] eqn:E.
  - apply IH. intros n' Hn'. apply H. right. exact Hn'.
  - exfalso. apply (H n); [left; reflexivity | exact E].
Qed.

Lemma fill_grid_data_get gcn fc gdf g m (ns : list Z) d gd :
  fill_grid_data G gcn fc gdf g m ns d = Some gd ->
  forall L, dict_get L gd
            = match last_at G gcn fc gdf g m L ns with
              | Some c => Some c
              | None => dict_get L d
              end.
Proof.
  revert d; induction ns as [|n t IH]; intros d H L; simpl in *.
  - congruence.
  - destruct (get_geographic_position G gdf g n) as [pos|] eqn:E; [|discriminate].
    rewrite (IH _ H L), dict_get_set.
    destruct (last_at G gcn fc gdf g m L t); [reflexivity|]. simpl.
    rewrite String.eqb_sym. destruct (String.eqb pos L); reflexivity.
Qed.

End SpatialProps.

(** Claim C8, counterexample.  In [split_mesh] all eight cells 1-8 touch
    the focal cell; cells 3 and 4 both map to "NE" and cells 5 and 6 both
    to "SE".  [generate_content] raises nothing and draws a [grid_data] in
    which cells 3 and 5 have been overwritten. *)
Lemma C8_label_collision_overwrites :
  get_neighbors rect rect_touches split_mesh 0 = [1; 2; 3; 4; 5; 6; 7; 8]%Z
  /\ map (get_geographic_position rect split_mesh 0) [1; 2; 3; 4; 5; 6; 7; 8]%Z
     = [Some "N"; Some "NW"; Some "NE"; Some "NE"; Some "SE"; Some "SE"; Some "S"; Some "W"]
  /\ generate_content rect rect_touches one_country [] split_mesh 0 1
     = Rendered split_mesh_grid_data
  /\ ~ In 3%Z (map (fun e => c_gid (snd e)) split_mesh_grid_data)
  /\ ~ In 5%Z (map (fun e => c_gid (snd e)) split_mesh_grid_data).
Proof.
  split; [vm_compute; reflexivity|].
  split; [vm_compute; reflexivity|].
  split; [vm_compute; reflexivity|].
  split; simpl; intuition discriminate.
Qed.

(** Claim C8 (amended).  [generate_content] raises no error for any
    mesh: the position of a neighbor is always found.  On label
    collisions the Python dict keeps, under each compass label, the last
    neighbor (in the order the neighbors are listed) with that label, the
    earlier ones being overwritten; a neighbor whose coordinates equal
    the focal cell's gets the empty label [""]. *)
Theorem C8_grid_data_last_wins (G : Type) (touches : G -> G -> bool)
    (get_country_name : Z -> option string) (baseline_forecast : list frow)
    (gdf : list (gcell G)) (priogrid_gid target_month_id : Z) :
  generate_content G touches get_country_name baseline_forecast gdf priogrid_gid target_month_id
    <> Raised
  /\ (forall gd,
        generate_content G touches get_country_name baseline_forecast gdf priogrid_gid
          target_month_id = Rendered gd ->
        forall L, L <> "CENTER" ->
        dict_get L gd = last_at G get_country_name baseline_forecast gdf priogrid_gid
                          target_month_id L (get_neighbors G touches gdf priogrid_gid))
  /\ (forall n focal_row neighbor_row,
        find_cell G gdf priogrid_gid = Some focal_row ->
        find_cell G gdf n = Some neighbor_row ->
        xcoord neighbor_row == xcoord focal_row ->
        ycoord neighbor_row == ycoord focal_row ->
        get_geographic_position G gdf priogrid_gid n = Some "").
Proof.
  unfold generate_content.
  set (ns := get_neighbors G touches gdf priogrid_gid).
  split; [|split].
  - destruct (negb (Nat.eqb (List.length ns) 8)); [discriminate|].
    destruct (fill_grid_data_some G get_country_name baseline_forecast gdf priogrid_gid
                target_month_id ns
                [("CENTER", mk_cell priogrid_gid
                              (get_forecast_value baseline_forecast priogrid_gid target_month_id)
                              (get_country_name priogrid_gid))])
      as [gd ->]; [|discriminate].
    intros n Hn. apply (get_neighbors_found G touches), Hn.
  - intros gd Hgd L HL.
    destruct (negb (Nat.eqb (List.length ns) 8)); [discriminate|].
    destruct (fill_grid_data G _ _ _ _ _ ns _) eqn:E; [|discriminate].
    injection Hgd as <-.
    rewrite (fill_grid_data_get G _ _ _ _ _ _ _ _ E L). simpl.
    apply String.eqb_neq in HL. rewrite HL.
    destruct (last_at G _ _ _ _ _ L ns); reflexivity.
  - intros n f nr Hf Hn Hx Hy. unfold get_geographic_position. rewrite Hf, Hn.
    unfold Qltb.
    assert (A : Qle_bool (ycoord nr) (ycoord f) = true) by (apply Qle_bool_iff; lra).
    assert (B : Qle_bool (ycoord f) (ycoord nr) = true) by (apply Qle_bool_iff; lra).
    assert (C : Qle_bool (xcoord nr) (xcoord f) = true) by (apply Qle_bool_iff; lra).
    assert (D : Qle_bool (xcoord f) (xcoord nr) = true) by (apply Qle_bool_iff; lra).
    rewrite A, B, C, D. reflexivity.
Qed.

(** Witness of claim C8 on [split_mesh]. *)
Lemma C8_grid_data_last_wins_witness :
  generate_content rect rect_touches one_country [] split_mesh 0 1 <> Raised
  /\ dict_get "NE" split_mesh_grid_data
     = last_at rect one_country [] split_mesh 0 1 "NE"
         (get_neighbors rect rect_touches split_mesh 0).
Proof.
  split.
  - apply (proj1 (C8_grid_data_last_wins rect rect_touches one_country [] split_mesh 0 1)).
  - apply (proj1 (proj2 (C8_grid_data_last_wins rect rect_touches one_country [] split_mesh 0 1))).
    + vm_compute. reflexivity.
    + discriminate.
Defined.

(** Claim C10.  [generate_content] renders nothing ([None]) for every cell
    whose neighbor count is not exactly 8, boundary cells included, and a
    focal cell absent from the mesh has the empty neighbor list. *)
Theorem C10_interior_only (G : Type) (touches : G -> G -> bool)
    (get_country_name : Z -> option string) (baseline_forecast : list frow)
    (gdf : list (gcell G)) (priogrid_gid target_month_id : Z) :
  (List.length (get_neighbors G touches gdf priogrid_gid) <> 8%nat ->
   generate_content G touches get_country_name baseline_forecast gdf priogrid_gid
     target_month_id = NoImage)
  /\ ((forall r, In r gdf -> gid r <> priogrid_gid) ->
      get_neighbors G touches gdf priogrid_gid = []).
Proof.
  split.
  - intro H. unfold generate_content.
    apply Nat.eqb_neq in H. rewrite H. reflexivity.
  - intro H. unfold get_neighbors, find_cell.
    destruct (find (fun r => Z.eqb (gid r) priogrid_gid) gdf) as [r|] eqn:E; [|reflexivity].
    apply find_some in E as [Hin Heq]. apply Z.eqb_eq in Heq.
    exfalso. exact (H r Hin Heq).
Qed.

(** Witness of claim C10: the boundary cell of [boundary_mesh] has 7
    neighbors and is not drawn; the absent cell 42 has no neighbors. *)
Lemma C10_interior_only_witness :
  List.length (get_neighbors rect rect_touches boundary_mesh 0) = 7%nat
  /\ generate_content rect rect_touches one_country [] boundary_mesh 0 1 = NoImage
  /\ get_neighbors rect rect_touches boundary_mesh 42 = [].
Proof.
  split; [vm_compute; reflexivity|]. split.
  - apply (proj1 (C10_interior_only rect rect_touches one_country [] boundary_mesh 0 1)).
    vm_compute. discriminate.
  - apply (proj2 (C10_interior_only rect rect_touches one_country [] boundary_mesh 42 1)).
    intros r Hr. simpl in Hr.
    repeat (destruct Hr as [<-|Hr]; [vm_compute; discriminate|]). contradiction.
Defined.

(** ** TrendEstimator *)

(** Claim C9, counterexample.  The grid extractor computes no slope for
    the rising six-point series and calls it "stable"; the country
    extractor gives a two-point series the same slope (0) and the same
    description as a flat three-point series: no "insufficient" marker
    is produced. *)
Lemma C9_no_slope_no_marker :
  historical_context six_points = (72 # 6, "moderate and stable")
  /\ snd (fst (ptb_trend [5; 5])) == snd (fst (ptb_trend [5; 5; 5]))
  /\ snd (ptb_trend [5; 5]) = snd (ptb_trend [5; 5; 5]).
Proof. split; [reflexivity|]. split; [reflexivity|reflexivity]. Qed.

(** Claim C9 (amended).  The country extractor's slope is the
    least-squares slope against the index for series of at least 3 points
    and 0 otherwise, a short series being described "relatively stable"
    with no other marker; on [[0,0,0,12,24,36]] its slope is positive.
    The grid extractor answers "no historical data" with no point and
    "limited data" for 1 to 5 points, reports the
    trend "stable" without any slope for 6 to 11 points, and from 12
    points on classifies the least-squares slope of the last 12 points. *)
Theorem C9_trend_slopes (points values : list Q) :
  ((3 <= List.length points)%nat -> snd (fst (ptb_trend points)) = polyfit_slope points)
  /\ ((List.length points < 3)%nat ->
      snd (fst (ptb_trend points)) = 0 /\ snd (ptb_trend points) = RelativelyStable)
  /\ 0 < snd (fst (ptb_trend six_points))
  /\ ((1 <= List.length values < 6)%nat -> snd (historical_context values) = "limited data")
  /\ ((6 <= List.length values < 12)%nat ->
      exists level, snd (historical_context values) = level ++ " and " ++ "stable")
  /\ ((12 <= List.length values)%nat ->
      let s := polyfit_slope (last_n 12 values) in
      exists level, snd (historical_context values)
                    = level ++ " and " ++ (if Qltb (Qabs s) 1 then "stable"
                                           else if Qltb 0 s then "increasing"
                                           else "decreasing"))
  /\ snd (historical_context []) = "no historical data".
Proof.
  split; [|split; [|split; [|split; [|split; [|split]]]]].
  - intro H. unfold ptb_trend. apply Nat.leb_le in H. rewrite H. reflexivity.
  - intro H. unfold ptb_trend. apply Nat.leb_gt in H. rewrite H. split; reflexivity.
  - vm_compute. reflexivity.
  - intro H. destruct values as [|x t]; [simpl in H; lia|].
    unfold historical_context. cbv iota beta zeta.
    rewrite (proj2 (Nat.ltb_lt _ _)) by lia. reflexivity.
  - intro H. destruct values as [|x t]; [simpl in H; lia|].
    unfold historical_context. cbv iota beta zeta.
    rewrite (proj2 (Nat.ltb_ge _ _)) by lia.
    rewrite (proj2 (Nat.leb_gt _ _)) by lia.
    eexists. reflexivity.
  - intro H. destruct values as [|x t]; [simpl in H; lia|].
    unfold historical_context. cbv iota beta zeta.
    rewrite (proj2 (Nat.ltb_ge _ _)) by lia.
    rewrite (proj2 (Nat.leb_le _ _)) by lia.
    eexists. reflexivity.
  - reflexivity.
Qed.

(** Witness of claim C9 on the six-point series and on a 12-point and a
    4-point series. *)
Lemma C9_trend_slopes_witness :
  snd (fst (ptb_trend six_points)) = polyfit_slope six_points
  /\ snd (fst (ptb_trend [1; 2])) = 0
  /\ snd (historical_context [1; 2; 3; 4]) = "limited data"
  /\ (exists level, snd (historical_context six_points) = level ++ " and " ++ "stable").
Proof.
  split; [apply (proj1 (C9_trend_slopes six_points [])); simpl; lia|].
  split; [apply (proj1 (proj1 (proj2 (C9_trend_slopes [1; 2] [])) ltac:(simpl; lia)))|].
  split.
  - apply (proj1 (proj2 (proj2 (proj2 (C9_trend_slopes [] [1; 2; 3; 4]))))). simpl; lia.
  - apply (proj1 (proj2 (proj2 (proj2 (proj2 (C9_trend_slopes [] six_points)))))). simpl; lia.
Defined.

(** * Further properties of the analytical code *)

(** Close a goal whose comparison hypotheses (of [Qle_bool] and
    [Qeq_bool]) are contradictory. *)
Ltac qcontra :=
  exfalso;
  repeat match goal with
  | H : Qle_bool _ _ = true |- _ => apply Qle_bool_iff in H
  | H : Qle_bool _ _ = false |- _ => apply not_true_iff_false in H; rewrite Qle_bool_iff in H
  | H : Qeq_bool _ _ = true |- _ => apply Qeq_bool_iff in H
  | H : Qeq_bool _ _ = false |- _ => apply not_true_iff_false in H; rewrite Qeq_bool_iff in H
  end;
  first [lra | match goal with H : ~ (_ == _) |- _ => apply H; lra end].

(** Case on every comparison a cascade of [if]s tests, dropping the
    contradictory branches. *)
Ltac split_ifs :=
  unfold Qltb, Qeqb in *;
  repeat match goal with
  | |- context [if ?c then _ else _] => destruct c eqn:?; try qcontra
  end.

(** Case on every comparison occurring in the goal, dropping the
    contradictory combinations. *)
Ltac split_atoms :=
  unfold Qltb, Qeqb in *;
  repeat (match goal with
          | |- context [Qle_bool ?a ?b] => destruct (Qle_bool a b) eqn:?; try qcontra
          | |- context [Qeq_bool ?a ?b] => destruct (Qeq_bool a b) eqn:?; try qcontra
          end; cbn [negb andb orb]).

(** ** Ordinal classifiers *)

(** [DataProvider.categorize_intensity] is monotone on non-negative
    values: a larger predicted count never gets a lower band. *)
Theorem categorize_intensity_monotone (x y : Q) :
  0 <= x -> x <= y ->
  (index_of intensity_labels (categorize_intensity x)
   <= index_of intensity_labels (categorize_intensity y))%nat.
Proof.
  intros H0 Hxy. unfold categorize_intensity.
  split_ifs; vm_compute; lia.
Qed.

(** [DataProvider.categorize_probability] is monotone: a larger
    probability never gets a lower risk band. *)
Theorem categorize_probability_monotone (x y : Q) :
  x <= y ->
  (index_of risk_labels (categorize_probability x)
   <= index_of risk_labels (categorize_probability y))%nat.
Proof.
  intros Hxy. unfold categorize_probability.
  split_ifs; vm_compute; lia.
Qed.

(** [GridBLUFDataExtractor._categorize_risk] is monotone on its six
    labels. *)
Theorem categorize_risk_monotone (x y : Q) :
  x <= y ->
  (index_of grid_risk_labels (categorize_risk x)
   <= index_of grid_risk_labels (categorize_risk y))%nat.
Proof.
  intros Hxy. unfold categorize_risk.
  split_ifs; vm_compute; lia.
Qed.

(** [utils.categorize_band_single] puts every value below [-0.1] in the
    top band "10,001+" (its loop falls through), while the waffle
    binning of the same file leaves such values out (NaN). *)
Theorem categorize_band_single_below_range (pred : Q) :
  pred < -1#10 ->
  categorize_band_single pred = "10,001+" /\ waffle_bin pred = None.
Proof.
  intro H. unfold categorize_band_single, waffle_bin. cbn [band_search BAND_BINS BAND_LABELS edge_lt le_edge edge_eq].
  split_atoms; split; reflexivity.
Qed.

(** On non-negative values [utils.categorize_band_single],
    [DataProvider.categorize_intensity] and the waffle binning give the
    same band (the labels of [config.py] write the ranges with an en
    dash). *)
Theorem categorize_band_single_agrees (pred : Q) :
  0 <= pred ->
  index_of BAND_LABELS (categorize_band_single pred)
  = index_of intensity_labels (categorize_intensity pred)
  /\ waffle_bin pred = Some (categorize_band_single pred).
Proof.
  intro H. unfold categorize_band_single, categorize_intensity, waffle_bin.
  cbn [band_search BAND_BINS BAND_LABELS edge_lt le_edge edge_eq].
  split_atoms; split; reflexivity.
Qed.

(** ** Chart counts of [utils.py] *)

Lemma nat_sum_map_add {A : Type} (f g : A -> nat) (l : list A) :
  nat_sum (map (fun x => (f x + g x)%nat) l) = (nat_sum (map f l) + nat_sum (map g l))%nat.
Proof. induction l as [|x t IH]; simpl; [reflexivity|]. rewrite IH. lia. Qed.

Lemma nat_sum_zeros {A : Type} (l : list A) :
  nat_sum (map (fun _ => 0%nat) l) = 0%nat.
Proof. induction l as [|x t IH]; [reflexivity|]. exact IH. Qed.

Lemma nat_sum_indicator (s : string) (l : list string) :
  NoDup l ->
  nat_sum (map (fun lab => if String.eqb s lab then 1%nat else 0%nat) l)
  = if existsb (String.eqb s) l then 1%nat else 0%nat.
Proof.
  induction 1 as [|x t Hx Hnd IH]; simpl; [reflexivity|].
  rewrite IH. destruct (String.eqb_spec s x) as [->|Hne]; simpl.
  - destruct (existsb (String.eqb x) t) eqn:E; [|reflexivity].
    apply existsb_exists in E as [y [Hy Ey]]. apply String.eqb_eq in Ey. subst. contradiction.
  - reflexivity.
Qed.

Lemma counts_by_sum {A : Type} (bin : A -> option string) (labels : list string)
    (dfm : list A) :
  NoDup labels ->
  (forall r lab, In r dfm -> bin r = Some lab -> In lab labels) ->
  nat_sum (map snd (counts_by bin labels dfm))
  = List.length (filter (fun r => match bin r with Some _ => true | None => false end) dfm).
Proof.
  intros Hnd. unfold counts_by. rewrite map_map. simpl.
  induction dfm as [|r t IH]; intro Hin.
  - simpl. apply nat_sum_zeros.
  - simpl.
    transitivity (nat_sum (map (fun lab => ((if opt_string_eqb (bin r) (Some lab) then 1 else 0)
                     + List.length (filter (fun r0 => opt_string_eqb (bin r0) (Some lab)) t))%nat)
                     labels)).
    { f_equal. apply map_ext. intro lab.
      destruct (opt_string_eqb (bin r) (Some lab)); reflexivity. }
    rewrite nat_sum_map_add, IH by (intros; apply (Hin r0); [right|]; assumption).
    destruct (bin r) as [s|] eqn:E; simpl.
    + rewrite nat_sum_indicator by exact Hnd.
      assert (Hs : In s labels) by (apply (Hin r); [left; reflexivity | exact E]).
      assert (Hb : existsb (String.eqb s) labels = true).
      { apply existsb_exists. exists s. split; [exact Hs | apply String.eqb_refl]. }
      rewrite Hb. reflexivity.
    + rewrite (nat_sum_zeros labels). reflexivity.
Qed.

Lemma filter_filter_andb {A : Type} (f g : A -> bool) (l : list A) :
  filter g (filter f l) = filter (fun x => f x && g x) l.
Proof.
  induction l as [|x t IH]; simpl; [reflexivity|].
  destruct (f x); simpl; [destruct (g x)|]; rewrite IH; reflexivity.
Qed.

Lemma PIE_LABELS_NoDup : NoDup PIE_LABELS.
Proof. repeat constructor; simpl; intuition discriminate. Qed.

Lemma BAND_LABELS_NoDup : NoDup BAND_LABELS.
Proof. repeat constructor; simpl; intuition discriminate. Qed.

(** [utils.pie_counts_for_month] counts every row of the month exactly
    once: its four counts add up to the number of rows of the month
    (a missing probability counting as 0). *)
Theorem pie_counts_total (df : list urow) (month_idx : Z) :
  nat_sum (map snd (pie_counts_for_month df month_idx))
  = List.length (filter (fun r => Z.eqb (u_outcome_n r) month_idx) df).
Proof.
  unfold pie_counts_for_month.
  destruct (filter (fun r => Z.eqb (u_outcome_n r) month_idx) df) as [|r0 t] eqn:E;
    [reflexivity|].
  rewrite counts_by_sum.
  - clear E. induction (r0 :: t) as [|r l IH]; simpl; [reflexivity|]. rewrite IH. reflexivity.
  - exact PIE_LABELS_NoDup.
  - intros r lab _ H. injection H as <-. unfold pie_bin.
    destruct (Qle_bool _ (1#100)); [simpl; tauto|].
    destruct (Qle_bool _ (1#2)); [simpl; tauto|].
    destruct (Qle_bool _ (99#100)); simpl; tauto.
Qed.

(** [utils.waffle_counts_for_month] counts the rows of the month whose
    predicted count (a missing one counting as 0) is at least [-0.1],
    each once; rows below [-0.1] are in no band. *)
Theorem waffle_counts_total (df : list urow) (month_idx : Z) :
  nat_sum (map snd (waffle_counts_for_month df month_idx))
  = List.length (filter (fun r => Z.eqb (u_outcome_n r) month_idx
                                  && Qle_bool (-1#10) (fillna0 (u_predicted r))) df).
Proof.
  unfold waffle_counts_for_month.
  rewrite <- filter_filter_andb.
  destruct (filter (fun r => Z.eqb (u_outcome_n r) month_idx) df) as [|r0 t] eqn:E;
    [reflexivity|].
  rewrite counts_by_sum.
  - f_equal. apply filter_ext. intro r. unfold waffle_bin, Qltb.
    destruct (Qle_bool (-1#10) (fillna0 (u_predicted r))); simpl; [|reflexivity].
    repeat (destruct (Qle_bool _ _); [reflexivity|]); reflexivity.
  - exact BAND_LABELS_NoDup.
  - intros r lab _ H. unfold waffle_bin in H.
    destruct (Qltb _ _); [discriminate|].
    repeat (destruct (Qle_bool _ _); [injection H as <-; simpl; tauto|]).
    injection H as <-; simpl; tauto.
Qed.

(** ** Percentiles *)

Lemma count_by_mono (f g : Q -> bool) (P : list Q) :
  (forall x, f x = true -> g x = true) -> (count_by f P <= count_by g P)%nat.
Proof.
  intro H. unfold count_by. induction P as [|x t IH]; simpl; [lia|].
  destruct (f x) eqn:Ef; [rewrite (H x Ef); simpl; lia|].
  destruct (g x); simpl; lia.
Qed.

Lemma count_by_length (f : Q -> bool) (P : list Q) : (count_by f P <= List.length P)%nat.
Proof.
  unfold count_by. induction P as [|x t IH]; simpl; [lia|]. destruct (f x); simpl; lia.
Qed.

Lemma inject_nat_le (m n : nat) :
  (m <= n)%nat -> inject_Z (Z.of_nat m) <= inject_Z (Z.of_nat n).
Proof. intro H. rewrite <- Zle_Qle. lia. Qed.

Lemma percentile_le_eq (v : Q) (P : list Q) :
  P <> [] ->
  exists q, percentile_le v P = Fin q
            /\ q == inject_Z (Z.of_nat (count_by (fun x => Qle_bool x v) P)) * 100 / Qlen P.
Proof.
  intro HP. eexists. split.
  - unfold percentile_le. rewrite series_mean_bool_nonempty
      by (destruct P; [congruence|discriminate]).
    rewrite Qlen_map. reflexivity.
  - rewrite Qsum_indicator. unfold Qdiv. ring.
Qed.

(** The data extractor's percentile of a non-empty population lies in
    [[0, 100]], whatever the value (also one outside the population). *)
Theorem percentile_le_range (v : Q) (P : list Q) :
  P <> [] -> exists q, percentile_le v P = Fin q /\ 0 <= q /\ q <= 100.
Proof.
  intro HP. destruct (percentile_le_eq v P HP) as [q [Hq Heq]].
  exists q. split; [exact Hq|]. rewrite Heq.
  pose proof (Qlen_pos P HP) as HL.
  pose proof (inject_nat_le 0 _ (Nat.le_0_l (count_by (fun x => Qle_bool x v) P))) as H0.
  pose proof (inject_nat_le _ _ (count_by_length (fun x => Qle_bool x v) P)) as H1.
  unfold Qlen in *. split.
  - change (inject_Z (Z.of_nat 0)) with 0 in H0.
    apply Qle_shift_div_l; [exact HL|]. lra.
  - apply Qle_shift_div_r; [exact HL|]. lra.
Qed.

(** The data extractor's percentile is monotone in the value: a larger
    probability never gets a lower percentile in the same population. *)
Theorem percentile_le_monotone (v w : Q) (P : list Q) :
  P <> [] -> v <= w ->
  exists q q', percentile_le v P = Fin q /\ percentile_le w P = Fin q' /\ q <= q'.
Proof.
  intros HP Hvw.
  destruct (percentile_le_eq v P HP) as [q [Hq Heq]].
  destruct (percentile_le_eq w P HP) as [q' [Hq' Heq']].
  exists q, q'. split; [exact Hq|]. split; [exact Hq'|]. rewrite Heq, Heq'.
  pose proof (Qlen_pos P HP) as HL.
  assert (Hc : (count_by (fun x => Qle_bool x v) P <= count_by (fun x => Qle_bool x w) P)%nat).
  { apply count_by_mono. intros x Hx. apply Qle_bool_iff in Hx. apply Qle_bool_iff. lra. }
  apply inject_nat_le in Hc.
  unfold Qdiv. apply Qmult_le_compat_r; [lra|].
  apply Qlt_le_weak, Qinv_lt_0_compat. exact HL.
Qed.


(** ** Ranking of a grid within its country *)

Lemma insert_desc_hd (z x : Z * Q) (l : list (Z * Q)) :
  desc_key z x -> HdRel desc_key z l -> HdRel desc_key z (insert_desc x l).
Proof.
  intros Hzx Hz. destruct l as [|y t]; simpl; [constructor; exact Hzx|].
  destruct (Qltb (snd y) (snd x)); constructor; [exact Hzx|]. inversion Hz; assumption.
Qed.

Lemma insert_desc_sorted (x : Z * Q) (l : list (Z * Q)) :
  Sorted desc_key l -> Sorted desc_key (insert_desc x l).
Proof.
  induction 1 as [|y t Ht IH Hy]; simpl; [repeat constructor|].
  destruct (Qltb (snd y) (snd x)) eqn:E.
  - constructor; [constructor; assumption|]. constructor.
    unfold desc_key, Qltb in *. destruct (Qle_bool (snd x) (snd y)) eqn:E'; [discriminate|].
    assert (~ snd x <= snd y) by (intro H; apply Qle_bool_iff in H; congruence). lra.
  - constructor; [exact IH|]. apply insert_desc_hd; [|exact Hy].
    unfold desc_key, Qltb in *. destruct (Qle_bool (snd x) (snd y)) eqn:E'; [|discriminate].
    apply Qle_bool_iff. exact E'.
Qed.

(** The sort of [_get_country_rank] (line 229) orders the country's grids
    by non-increasing forecast value. *)
Theorem sort_desc_sorted (l : list (Z * Q)) : Sorted desc_key (sort_desc l).
Proof.
  unfold sort_desc. assert (H : Sorted desc_key (@nil (Z * Q))) by constructor.
  revert H. generalize (@nil (Z * Q)).
  induction l as [|x t IH]; intros acc Hacc; simpl; [exact Hacc|].
  apply IH, insert_desc_sorted, Hacc.
Qed.

(** [_get_country_rank] on a grid that has a row for the target month and
    lies in the (non-empty) named country: its rank lies between 1 and the
    total, the total is the number of that month's rows in the country, and
    [higher]/[lower] count the grids before and after it. *)
Theorem get_country_rank_found (get_country_name : Z -> option string)
    (forecast_data : list frow) (g m : Z) (country_name : option string) (r : frow) :
  name_truthy country_name = true ->
  In r forecast_data -> f_gid r = g -> f_month_id r = m ->
  opt_string_eqb (get_country_name g) country_name = true ->
  let ri := get_country_rank get_country_name forecast_data g m country_name in
  (1 <= rank ri <= total ri)%Z
  /\ total ri = Z.of_nat (List.length
                   (filter (fun x => Z.eqb (f_month_id x) m
                                     && opt_string_eqb (get_country_name (f_gid x)) country_name)
                           forecast_data))
  /\ higher ri = (rank ri - 1)%Z /\ lower ri = (total ri - rank ri)%Z.
Proof.
  intros Hname Hin Hg Hm Hc ri. unfold ri, get_country_rank. rewrite Hname. cbn [negb].
  assert (Hf : In r (filter (fun x => Z.eqb (f_gid x) g && Z.eqb (f_month_id x) m) forecast_data)).
  { apply filter_In. split; [exact Hin|]. rewrite Hg, Hm, !Z.eqb_refl. reflexivity. }
  destruct (filter (fun x => Z.eqb (f_gid x) g && Z.eqb (f_month_id x) m) forecast_data);
    [contradiction|].
  set (cg := map (fun x => (f_gid x, f_outcome_n x))
               (filter (fun x => opt_string_eqb (get_country_name (f_gid x)) country_name)
                  (filter (fun x => Z.eqb (f_month_id x) m) forecast_data))).
  assert (Hcg : In g (map fst cg)).
  { unfold cg. rewrite map_map. apply in_map_iff. exists r. split; [exact Hg|].
    rewrite !filter_In. rewrite Hg, Hm, Z.eqb_refl. auto. }
  assert (Hlen : List.length cg
                 = List.length (filter (fun x => Z.eqb (f_month_id x) m
                     && opt_string_eqb (get_country_name (f_gid x)) country_name) forecast_data)).
  { unfold cg. rewrite length_map, filter_filter_andb. reflexivity. }
  assert (Eri : match cg with [] => unranked | _ :: _ => rank_within cg g end
                = rank_within cg g) by (destruct cg; [contradiction|reflexivity]).
  rewrite Eri.
  unfold rank_within. cbn [rank total higher lower].
  assert (Hs : In g (map fst (sort_desc cg))).
  { apply Permutation_in with (map fst cg); [|exact Hcg].
    apply Permutation_map. symmetry. apply sort_desc_perm. }
  pose proof (find_rank_bounds g (sort_desc cg) 1 Hs) as Hb.
  rewrite (Permutation_length (sort_desc_perm cg)) in *.
  rewrite <- Hlen. repeat split; lia.
Qed.

(** ** Historical series of a country *)

Lemma filter_nil_existsb {A : Type} (f : A -> bool) (l : list A) :
  filter f l = [] -> existsb f l = false.
Proof.
  intro E. destruct (existsb f l) eqn:Ex; [|reflexivity].
  apply existsb_exists in Ex as [x [Hx Hfx]].
  assert (H : In x (filter f l)) by (apply filter_In; auto). rewrite E in H. contradiction.
Qed.

Lemma filter_cons_existsb {A : Type} (f : A -> bool) (l : list A) (x : A) (t : list A) :
  filter f l = x :: t -> existsb f l = true.
Proof.
  intro E. assert (H : In x (filter f l)) by (rewrite E; left; reflexivity).
  apply filter_In in H as [Hx Hfx]. apply existsb_exists. eauto.
Qed.

Lemma history_window_length : List.length history_window = 68%nat.
Proof. vm_compute. reflexivity. Qed.

(** [_get_historical_monthly_data] returns one value per month from
    January 2020 to August 2025 (68 values) for a country with at least
    one historical row, and the empty list otherwise. *)
Theorem get_historical_monthly_data_length (historical_data : list hrow)
    (country_code : string) :
  List.length (get_historical_monthly_data historical_data country_code)
  = if existsb (fun r => String.eqb (h_isoab r) country_code) historical_data
    then 68%nat else 0%nat.
Proof.
  unfold get_historical_monthly_data.
  destruct (filter (fun r => String.eqb (h_isoab r) country_code) historical_data)
    as [|x t] eqn:E.
  - rewrite (filter_nil_existsb _ _ E). reflexivity.
  - rewrite (filter_cons_existsb _ _ _ _ E), length_map. exact history_window_length.
Qed.

Lemma Qsum_nonneg (l : list Q) : (forall x, In x l -> 0 <= x) -> 0 <= Qsum l.
Proof.
  induction l as [|x t IH]; intro H; simpl; [apply Qle_refl|].
  assert (0 <= x) by (apply H; left; reflexivity).
  assert (0 <= Qsum t) by (apply IH; intros; apply H; right; assumption).
  unfold Qsum in *. simpl. lra.
Qed.

(** With non-negative fatality counts, every monthly value of
    [_get_historical_monthly_data] is non-negative (a month with no row
    counts 0). *)
Theorem get_historical_monthly_data_nonneg (historical_data : list hrow)
    (country_code : string) :
  (forall r, In r historical_data -> 0 <= h_total_fatalities r) ->
  Forall (fun q => 0 <= q) (get_historical_monthly_data historical_data country_code).
Proof.
  intro H. unfold get_historical_monthly_data.
  destruct (filter _ historical_data) as [|x t] eqn:E; [constructor|].
  apply Forall_forall. intros q Hq. apply in_map_iff in Hq as [ym [<- _]].
  destruct (filter _ (x :: t)) as [|y u] eqn:E'; [apply Qle_refl|].
  rewrite <- E'. apply Qsum_nonneg. intros z Hz. apply in_map_iff in Hz as [r [<- Hr]].
  apply filter_In in Hr as [Hr _]. rewrite <- E in Hr. apply filter_In in Hr as [Hr _].
  exact (H r Hr).
Qed.

(** ** Forecast comparisons *)

Lemma Qle_bool_morph (a a' b b' : Q) : a == a' -> b == b' -> Qle_bool a b = Qle_bool a' b'.
Proof. intros Ha Hb. apply eq_true_iff_eq. rewrite !Qle_bool_iff, Ha, Hb. reflexivity. Qed.

Lemma Qeq_bool_morph (a a' b b' : Q) : a == a' -> b == b' -> Qeq_bool a b = Qeq_bool a' b'.
Proof. intros Ha Hb. apply eq_true_iff_eq. rewrite !Qeq_bool_iff, Ha, Hb. reflexivity. Qed.

Lemma Qeq_bool_false (a b : Q) : Qeq_bool a b = false -> ~ a == b.
Proof. intros E H. apply Qeq_bool_iff in H. congruence. Qed.


Lemma Qeqb_scale (k h : Q) : 0 < k -> Qeqb (k * h) 0 = Qeqb h 0.
Proof.
  intro Hk. unfold Qeqb. destruct (Qeq_bool h 0) eqn:E.
  - apply Qeq_bool_iff in E. apply Qeq_bool_iff. rewrite E. ring.
  - apply Qeq_bool_false in E. destruct (Qeq_bool (k * h) 0) eqn:E'; [|reflexivity].
    apply Qeq_bool_iff in E'. apply Qmult_integral in E' as [E'|E']; [lra|contradiction].
Qed.

Lemma Qltb_scale_0 (k f : Q) : 0 < k -> Qltb 0 (k * f) = Qltb 0 f.
Proof.
  intro Hk. unfold Qltb. f_equal. apply eq_true_iff_eq. rewrite !Qle_bool_iff.
  rewrite <- (Qmult_le_l f 0 k Hk). setoid_replace (k * 0) with 0 by ring. reflexivity.
Qed.

Lemma ratio_scale (k p h : Q) : 0 < k -> ~ h == 0 -> k * p / (k * h) == p / h.
Proof. intros Hk Hh. field. split; [exact Hh|lra]. Qed.

(** Both forecast comparisons depend only on the ratio of the forecast to
    the historical average: scaling both by the same positive factor never
    changes the text (in particular, the unit of the counts does not
    matter). *)
Theorem forecast_comparisons_scale_invariant (k p h : Q) :
  0 < k ->
  get_forecast_comparison (k * p) (k * h) = get_forecast_comparison p h
  /\ compare_forecast_to_historical (k * p) (k * h) = compare_forecast_to_historical p h.
Proof.
  intro Hk. unfold get_forecast_comparison, compare_forecast_to_historical.
  rewrite (Qeqb_scale k h Hk), (Qltb_scale_0 k p Hk).
  destruct (Qeqb h 0) eqn:E; [split; reflexivity|].
  apply Qeq_bool_false in E. pose proof (ratio_scale k p h Hk E) as Hr. unfold Qltb.
  rewrite (Qle_bool_morph (k * p / (k * h)) (p / h) (11#10) (11#10) Hr (Qeq_refl _)),
          (Qle_bool_morph (9#10) (9#10) (k * p / (k * h)) (p / h) (Qeq_refl _) Hr),
          (Qle_bool_morph (k * p / (k * h)) (p / h) (12#10) (12#10) Hr (Qeq_refl _)),
          (Qle_bool_morph (8#10) (8#10) (k * p / (k * h)) (p / h) (Qeq_refl _) Hr).
  split; reflexivity.
Qed.

(** Against a positive historical average, both comparisons agree with
    the order of the numbers: a forecast at least the average is never
    called lower, one at most the average is never called higher. *)
Theorem forecast_comparisons_respect_order (p h : Q) :
  0 < h ->
  (h <= p -> get_forecast_comparison p h <> "lower than"
             /\ compare_forecast_to_historical p h <> "lower than")
  /\ (p <= h -> get_forecast_comparison p h <> "higher than"
                /\ compare_forecast_to_historical p h <> "higher than").
Proof.
  intro Hh. unfold get_forecast_comparison, compare_forecast_to_historical, Qeqb, Qltb.
  assert (E : Qeq_bool h 0 = false)
    by (destruct (Qeq_bool h 0) eqn:E; [apply Qeq_bool_iff in E; lra|reflexivity]).
  rewrite E. split; intro Hp.
  - assert (Hr : 1 <= p / h) by (apply Qle_shift_div_l; [exact Hh|lra]).
    rewrite (proj2 (Qle_bool_iff (9#10) (p / h))) by lra.
    rewrite (proj2 (Qle_bool_iff (8#10) (p / h))) by lra.
    cbn [negb]. split; destruct (Qle_bool (p / h) _); discriminate.
  - assert (Hr : p / h <= 1) by (apply Qle_shift_div_r; [exact Hh|lra]).
    rewrite (proj2 (Qle_bool_iff (p / h) (11#10))) by lra.
    rewrite (proj2 (Qle_bool_iff (p / h) (12#10))) by lra.
    cbn [negb]. split; destruct (Qle_bool _ (p / h)); discriminate.
Qed.


(** ** Neighborhood of a grid cell *)


Lemma Qlen_cons {A : Type} (x : A) (t : list A) : Qlen (x :: t) == Qlen t + 1.
Proof.
  unfold Qlen. cbn [List.length]. rewrite Nat2Z.inj_succ, <- Z.add_1_r, inject_Z_plus.
  reflexivity.
Qed.




(** ** Cohorts *)

Lemma in_firstn {A : Type} (n : nat) (l : list A) (x : A) : In x (firstn n l) -> In x l.
Proof.
  intro H. rewrite <- (firstn_skipn n l). apply in_or_app. left. exact H.
Qed.

(** Whatever order [sort_values] gives (as long as it only returns rows
    it was given), the cohort list of [extract_template_data] never
    contains the country itself, has at most three members, and lists
    only countries that have a row in the month. *)
Theorem extract_cohort_members (sort_values : (crow -> Q) -> list crow -> list crow)
    (month_data : list crow) (country_code : string) (cohort : list string) (label : string) :
  (forall key rows r, In r (sort_values key rows) -> In r rows) ->
  extract_cohort sort_values month_data country_code = Some (cohort, label) ->
  ~ In country_code cohort /\ (List.length cohort <= 3)%nat
  /\ (forall c, In c cohort -> exists r, In r month_data /\ isoab r = c).
Proof.
  intros Hsort Hext. unfold extract_cohort in Hext.
  destruct (filter _ month_data) as [|t ts]; [discriminate|].
  set (cc := get_cohort_countries month_data (categorize_probability (outcome_p t))
               (categorize_intensity (predicted t))) in Hext.
  set (ex := firstn 3 (filter (fun c => negb (String.eqb c country_code)) cc)) in Hext.
  assert (Hcc : forall c, In c cc -> exists r, In r month_data /\ isoab r = c).
  { intros c Hc. unfold cc, get_cohort_countries in Hc. destruct month_data; [contradiction|].
    apply in_map_iff in Hc as [r [<- Hr]]. apply filter_In in Hr as [Hr _]. eauto. }
  assert (Hex : forall c, In c ex ->
                 c <> country_code /\ exists r, In r month_data /\ isoab r = c).
  { intros c Hc. apply in_firstn in Hc. apply filter_In in Hc as [Hc Hne].
    split; [|exact (Hcc c Hc)]. intro E. subst. rewrite String.eqb_refl in Hne. discriminate. }
  assert (Hexl : (List.length ex <= 3)%nat) by (unfold ex; rewrite length_firstn; lia).
  destruct (Nat.ltb (List.length ex) 3) eqn:Hlt.
  - injection Hext as <- _.
    set (rem := filter (fun r => negb (isin (isoab r) ex))
                  (sort_values (fun r => Qabs (predicted r - predicted t))
                     (filter (fun r => negb (String.eqb (isoab r) country_code)) month_data))).
    assert (Hfb : forall c, In c (firstn (3 - List.length ex) (map isoab rem)) ->
                   c <> country_code /\ exists r, In r month_data /\ isoab r = c).
    { intros c Hc. apply in_firstn in Hc. apply in_map_iff in Hc as [r [<- Hr]].
      unfold rem in Hr. apply filter_In in Hr as [Hr _]. apply Hsort in Hr.
      apply filter_In in Hr as [Hr Hne]. split; [|eauto].
      intro E. rewrite E, String.eqb_refl in Hne. discriminate. }
    split; [|split].
    + intro Hin. apply in_app_or in Hin as [Hin|Hin];
        [exact (proj1 (Hex _ Hin) eq_refl)|exact (proj1 (Hfb _ Hin) eq_refl)].
    + rewrite length_app, length_firstn. revert Hexl. generalize (List.length ex) as k.
      intros k Hk. destruct k as [|[|[|k]]]; lia.
    + intros c Hin. apply in_app_or in Hin as [Hin|Hin];
        [exact (proj2 (Hex _ Hin))|exact (proj2 (Hfb _ Hin))].
  - injection Hext as <- _. split; [|split].
    + intro Hin. exact (proj1 (Hex _ Hin) eq_refl).
    + exact Hexl.
    + intros c Hin. exact (proj2 (Hex _ Hin)).
Qed.

(** ** Least-squares slope *)

Lemma Qsum_app (l1 l2 : list Q) : Qsum (l1 ++ l2) == Qsum l1 + Qsum l2.
Proof.
  induction l1 as [|x t IH]; unfold Qsum in *; simpl; [ring|]. rewrite IH. ring.
Qed.

Lemma inject_nat_succ (n : nat) : inject_Z (Z.of_nat (S n)) == inject_Z (Z.of_nat n) + 1.
Proof. rewrite Nat2Z.inj_succ, <- Z.add_1_r, inject_Z_plus. reflexivity. Qed.

Lemma Qsum_indices (n : nat) :
  Qsum (map (fun i => inject_Z (Z.of_nat i)) (seq 0 n))
  == inject_Z (Z.of_nat n) * (inject_Z (Z.of_nat n) - 1) / 2.
Proof.
  induction n as [|n IH]; [reflexivity|].
  rewrite seq_S, map_app, Qsum_app, IH, inject_nat_succ. unfold Qsum. simpl. field.
Qed.

Lemma Qsum_squares (n : nat) :
  Qsum (map (fun x => x * x) (map (fun i => inject_Z (Z.of_nat i)) (seq 0 n)))
  == inject_Z (Z.of_nat n) * (inject_Z (Z.of_nat n) - 1)
     * (2 * inject_Z (Z.of_nat n) - 1) / 6.
Proof.
  induction n as [|n IH]; [reflexivity|].
  rewrite seq_S, !map_app, Qsum_app, IH, inject_nat_succ. unfold Qsum. simpl. field.
Qed.

Lemma Qsum_affine (a b : Q) (xs : list Q) :
  Qsum (map (fun x => a + b * x) xs) == a * Qlen xs + b * Qsum xs.
Proof.
  induction xs as [|x t IH]; [unfold Qsum, Qlen; simpl; ring|].
  rewrite Qlen_cons. unfold Qsum in *. cbn [map fold_right]. rewrite IH. ring.
Qed.

Lemma Qsum_moment (a b : Q) (xs : list Q) :
  Qsum (map (fun x => x * (a + b * x)) xs) == a * Qsum xs + b * Qsum (map (fun x => x * x) xs).
Proof.
  induction xs as [|x t IH]; [unfold Qsum; simpl; ring|].
  unfold Qsum in *. cbn [map fold_right]. rewrite IH. ring.
Qed.

Lemma combine_map_self {A B : Type} (f : A -> B) (xs : list A) :
  combine xs (map f xs) = map (fun x => (x, f x)) xs.
Proof. induction xs as [|x t IH]; simpl; [reflexivity|]. rewrite IH. reflexivity. Qed.

Lemma Qdiv_eq_of_mul (x d b : Q) : ~ d == 0 -> x == b * d -> x / d == b.
Proof. intros Hd Hx. rewrite Hx. field. exact Hd. Qed.

(** [np.polyfit(range(n), values, 1)[0]] recovers the slope of an exactly
    linear series [a + b*i] of at least two points; the country
    extractor's [trend_slope] is then [b] from three points on. *)
Theorem polyfit_slope_linear (a b : Q) (n : nat) :
  (2 <= n)%nat ->
  let ys := map (fun i => a + b * inject_Z (Z.of_nat i)) (seq 0 n) in
  polyfit_slope ys == b
  /\ ((3 <= n)%nat -> snd (fst (ptb_trend ys)) == b).
Proof.
  intros Hn ys.
  assert (Hp : polyfit_slope ys == b).
  { unfold ys, polyfit_slope. rewrite length_map, length_seq.
    set (xs := map (fun i => inject_Z (Z.of_nat i)) (seq 0 n)).
    assert (Hys : map (fun i => a + b * inject_Z (Z.of_nat i)) (seq 0 n)
                  = map (fun x => a + b * x) xs) by (unfold xs; rewrite map_map; reflexivity).
    assert (HL : Qlen xs = inject_Z (Z.of_nat n))
      by (unfold xs, Qlen; rewrite length_map, length_seq; reflexivity).
    rewrite Hys, Qlen_map, HL, combine_map_self, map_map. cbn [fst snd].
    rewrite Qsum_affine, Qsum_moment, HL.
    set (N := inject_Z (Z.of_nat n)) in *.
    assert (HN : 2 <= N) by (apply (inject_nat_le 2 n Hn)).
    pose proof (Qsum_indices n) as HSx. pose proof (Qsum_squares n) as HSxx.
    fold xs N in HSx, HSxx.
    set (Sx := Qsum xs) in *. set (Sxx := Qsum (map (fun x => x * x) xs)) in *.
    apply Qdiv_eq_of_mul; [|ring].
    rewrite HSx, HSxx. intro H.
    assert (HP : 0 < N * N * (N - 1) * (N + 1)).
    { repeat apply Qmult_lt_0_compat; lra. }
    assert (HD : N * (N * (N - 1) * (2 * N - 1) / 6) - N * (N - 1) / 2 * (N * (N - 1) / 2)
                 == N * N * (N - 1) * (N + 1) / 12) by field.
    rewrite HD in H. set (P := N * N * (N - 1) * (N + 1)) in *. clearbody P.
    assert (HP12 : 0 < P / 12) by (apply Qlt_shift_div_l; [reflexivity|lra]).
    rewrite H in HP12. exact (Qlt_irrefl 0 HP12). }
  split; [exact Hp|]. intro H3. unfold ptb_trend. cbn [fst snd].
  assert (Hl : List.length ys = n) by (unfold ys; rewrite length_map, length_seq; reflexivity).
  rewrite Hl. destruct (Nat.leb_spec 3 n); [exact Hp|lia].
Qed.

(** ** Relative position of two cells *)

(** [_get_geographic_position] is antisymmetric: the position of [a] seen
    from [b] is the opposite direction of [b] seen from [a] (["NE"] and
    ["SW"], the empty position for equal coordinates), and both fail
    when either gid is missing. *)
Theorem get_geographic_position_flip (G : Type) (gdf : list (gcell G)) (a b : Z) :
  get_geographic_position G gdf b a
  = option_map flip_compass (get_geographic_position G gdf a b)
  /\ (find_cell G gdf a = None \/ find_cell G gdf b = None ->
      get_geographic_position G gdf a b = None /\ get_geographic_position G gdf b a = None).
Proof.
  unfold get_geographic_position.
  destruct (find_cell G gdf a) as [fa|], (find_cell G gdf b) as [fb|];
    try (split; [reflexivity | intros _; split; reflexivity]).
  split; [cbn [option_map]; split_atoms; reflexivity|].
  intros [H|H]; discriminate H.
Qed.

(** ** Percentiles of [extract_template_data] *)

Lemma percentile_le_member (v : Q) (P : list Q) :
  In v P -> exists q, percentile_le v P = Fin q /\ 0 < q /\ q <= 100.
Proof.
  intro Hin. assert (HP : P <> []) by (intro E; subst; contradiction).
  destruct (percentile_le_eq v P HP) as [q [Hq Heq]].
  exists q. split; [exact Hq|]. rewrite Heq.
  pose proof (Qlen_pos P HP) as HL.
  pose proof (inject_nat_pos _ (count_le_member v P Hin)) as H0.
  pose proof (inject_nat_le _ _ (count_by_length (fun x => Qle_bool x v) P)) as H1.
  unfold Qlen in *. split.
  - apply Qlt_shift_div_l; [exact HL|]. lra.
  - apply Qle_shift_div_r; [exact HL|]. lra.
Qed.

(** Claim C7.  In [extract_template_data] a percentile is never taken
    over an empty population: an empty month raises the [ValueError] of
    line 26 before the percentiles are computed, and whenever the guard
    is passed the month holds the country's own row, so both percentiles
    are numbers in [(0, 100]]. *)
Theorem C7_empty_population_guarded (month_data : list crow) (country_code : string) :
  template_percentiles [] country_code = None
  /\ match template_percentiles month_data country_code with
     | None => filter (fun r => String.eqb (isoab r) country_code) month_data = []
     | Some (pp, pq) =>
       month_data <> []
       /\ exists a b, pp = Fin a /\ pq = Fin b /\ 0 < a /\ a <= 100 /\ 0 < b /\ b <= 100
     end.
Proof.
  split; [reflexivity|]. unfold template_percentiles.
  destruct (filter (fun r => String.eqb (isoab r) country_code) month_data) as [|t ts] eqn:E;
    [reflexivity|].
  assert (Ht : In t month_data).
  { assert (H : In t (filter (fun r => String.eqb (isoab r) country_code) month_data))
      by (rewrite E; left; reflexivity).
    apply filter_In in H as [H _]. exact H. }
  split; [intro H; subst; contradiction|].
  destruct (percentile_le_member (outcome_p t) (map outcome_p month_data) (in_map _ _ _ Ht))
    as [a [Ha [Ha0 Ha1]]].
  destruct (percentile_le_member (predicted t) (map predicted month_data) (in_map _ _ _ Ht))
    as [b [Hb [Hb0 Hb1]]].
  exists a, b. repeat split; assumption.
Qed.

(** Witness of claim C7: the empty month and the month [cohort_md]. *)
Lemma C7_empty_population_guarded_witness :
  template_percentiles [] "AAA" = None /\ cohort_md <> [].
Proof.
  split.
  - exact (proj1 (C7_empty_population_guarded cohort_md "AAA")).
  - exact (proj1 (proj2 (C7_empty_population_guarded cohort_md "AAA"))).
Defined.

(** ** Instances of the properties *)

Lemma insert_asc_in {A : Type} (key : A -> Q) (y : A) (l : list A) (x : A) :
  In x (insert_asc key y l) -> x = y \/ In x l.
Proof.
  induction l as [|z t IH]; simpl.
  - intros [<-|[]]. left. reflexivity.
  - destruct (Qltb (key y) (key z)); simpl.
    + intros [<-|H]; [left; reflexivity|right; exact H].
    + intros [<-|H]; [right; left; reflexivity|].
      destruct (IH H) as [H'|H']; [left; exact H'|right; right; exact H'].
Qed.

Lemma stable_sort_by_in {A : Type} (key : A -> Q) (rows : list A) (x : A) :
  In x (stable_sort_by key rows) -> In x rows.
Proof.
  unfold stable_sort_by.
  assert (Hacc : forall acc, In x (fold_left (fun acc y => insert_asc key y acc) rows acc) ->
                             In x rows \/ In x acc).
  { induction rows as [|y t IH]; intros acc H; simpl in *; [tauto|].
    destruct (IH _ H) as [H'|H']; [left; right; exact H'|].
    apply insert_asc_in in H' as [<-|H']; [left; left; reflexivity|right; exact H']. }
  intro H. destruct (Hacc [] H) as [H'|[]]. exact H'.
Qed.

Lemma categorize_intensity_monotone_witness :
  (index_of intensity_labels (categorize_intensity 5)
   <= index_of intensity_labels (categorize_intensity 50))%nat.
Proof. apply (categorize_intensity_monotone 5 50); lra. Defined.

Lemma categorize_probability_monotone_witness :
  (index_of risk_labels (categorize_probability (3#10))
   <= index_of risk_labels (categorize_probability (7#10)))%nat.
Proof. apply (categorize_probability_monotone (3#10) (7#10)); lra. Defined.

Lemma categorize_risk_monotone_witness :
  (index_of grid_risk_labels (categorize_risk (3#10))
   <= index_of grid_risk_labels (categorize_risk (8#10)))%nat.
Proof. apply (categorize_risk_monotone (3#10) (8#10)); lra. Defined.

Lemma categorize_band_single_below_range_witness :
  categorize_band_single (-1) = "10,001+" /\ waffle_bin (-1) = None.
Proof. apply (categorize_band_single_below_range (-1)); lra. Defined.

Lemma categorize_band_single_agrees_witness :
  index_of BAND_LABELS (categorize_band_single 42)
  = index_of intensity_labels (categorize_intensity 42)
  /\ waffle_bin 42 = Some (categorize_band_single 42).
Proof. apply (categorize_band_single_agrees 42); lra. Defined.

Lemma percentile_le_range_witness :
  exists q, percentile_le 2 tied_population = Fin q /\ 0 <= q /\ q <= 100.
Proof. apply (percentile_le_range 2 tied_population). discriminate. Defined.

Lemma percentile_le_monotone_witness :
  exists q q', percentile_le 1 tied_population = Fin q
               /\ percentile_le 2 tied_population = Fin q' /\ q <= q'.
Proof. apply (percentile_le_monotone 1 2 tied_population); [discriminate|lra]. Defined.


Lemma get_country_rank_found_witness :
  let fd := [mk_frow 1 7 10; mk_frow 2 7 30; mk_frow 3 7 20; mk_frow 3 8 90] in
  let ri := get_country_rank (fun _ => Some "Mali") fd 3 7 (Some "Mali") in
  (1 <= rank ri <= total ri)%Z
  /\ total ri = Z.of_nat (List.length
                   (filter (fun x => Z.eqb (f_month_id x) 7
                                     && opt_string_eqb (Some "Mali") (Some "Mali")) fd))
  /\ higher ri = (rank ri - 1)%Z /\ lower ri = (total ri - rank ri)%Z.
Proof.
  intros fd ri.
  apply (get_country_rank_found (fun _ => Some "Mali") fd 3 7 (Some "Mali") (mk_frow 3 7 20));
    [reflexivity | simpl; tauto | reflexivity | reflexivity | reflexivity].
Defined.

Lemma get_historical_monthly_data_nonneg_witness :
  Forall (fun q => 0 <= q)
    (get_historical_monthly_data [mk_hrow "MLI" 2021 3 10; mk_hrow "MLI" 2024 7 5] "MLI").
Proof.
  apply get_historical_monthly_data_nonneg.
  intros r [<-|[<-|[]]]; cbn [h_total_fatalities]; lra.
Defined.

Lemma forecast_comparisons_scale_invariant_witness :
  get_forecast_comparison (3 * 12) (3 * 10) = get_forecast_comparison 12 10
  /\ compare_forecast_to_historical (3 * 12) (3 * 10) = compare_forecast_to_historical 12 10.
Proof. apply (forecast_comparisons_scale_invariant 3 12 10). lra. Defined.

Lemma forecast_comparisons_respect_order_witness :
  (10 <= 12 -> get_forecast_comparison 12 10 <> "lower than"
               /\ compare_forecast_to_historical 12 10 <> "lower than")
  /\ (12 <= 10 -> get_forecast_comparison 12 10 <> "higher than"
                  /\ compare_forecast_to_historical 12 10 <> "higher than").
Proof. apply (forecast_comparisons_respect_order 12 10). lra. Defined.


Lemma extract_cohort_members_witness :
  ~ In "AAA" ["BBB"; "CCC"] /\ (List.length ["BBB"; "CCC"] <= 3)%nat
  /\ (forall c, In c ["BBB"; "CCC"] -> exists r, In r cohort_md /\ isoab r = c).
Proof.
  apply (extract_cohort_members stable_sort_by cohort_md "AAA" ["BBB"; "CCC"] "most similar").
  - intros key rows r. apply stable_sort_by_in.
  - vm_compute. reflexivity.
Defined.


Lemma get_geographic_position_flip_witness :
  get_geographic_position rect split_mesh 0 42 = None
  /\ get_geographic_position rect split_mesh 42 0 = None.
Proof.
  apply (proj2 (get_geographic_position_flip rect split_mesh 0 42)).
  right. vm_compute. reflexivity.
Defined.

Lemma polyfit_slope_linear_witness :
  let ys := map (fun i => 1 + 2 * inject_Z (Z.of_nat i)) (seq 0 4) in
  polyfit_slope ys == 2 /\ ((3 <= 4)%nat -> snd (fst (ptb_trend ys)) == 2).
Proof. apply (polyfit_slope_linear 1 2 4). lia. Defined.
